(** * NexusPulse vitality engine

    A shallow embedding of [lib/vitality-engine.ts] and the properties its
    design document states about it.

    Numbers.  A TypeScript [number] is an IEEE-754 binary64 value.  Every
    finite one is a rational, so numbers are rationals ([Q]) and equality
    of numbers is [Qeq] ([==]), never Leibniz equality.  The engine is
    embedded twice:

    - [computeVitality] reads the arithmetic exactly: [0.5], [0.3] and
      [0.2] are 1/2, 3/10 and 1/5 and the operators are the rational ones.
      This is the formula of the design document; the properties of order
      and of clamping are stated on it.
    - [computeVitality64] reads the arithmetic as the code runs it: every
      literal and every operator result is rounded to the nearest binary64
      number ([round64], ties to even), and a result beyond the finite range
      is [NotFinite].  What depends on the last digits of a number - the
      rounding of a half, a comparison at a margin, a printed decimal - is
      stated on this one.

    Senses of zero are not kept apart: [-0] is [0].

    Division.  In the exact reading [/] has no value on a zero divisor
    ([JsNum.div] answers [DivisionError]); in the binary64 reading the
    quotient by zero is an infinity or NaN ([div64] answers [NotFinite]).
    Both are threaded through the formula in a small monad, so that "the
    division is guarded" is a statement about the code and not about the
    model. *)

From Stdlib Require Import QArith Qround Qminmax Qabs Qpower Lqa ZArith Lia.
From Stdlib Require Import String Ascii List Bool DecimalString.
Import ListNotations.

Open Scope Q_scope.

(** ** Results of partial computations *)

Inductive result (A : Type) : Type :=
| Ok (a : A)
| DivisionError.

Arguments Ok {A} a.
Arguments DivisionError {A}.

Definition bind {A B : Type} (c : result A) (k : A -> result B) : result B :=
  match c with
  | Ok a => k a
  | DivisionError => DivisionError
  end.

Declare Scope result_scope.
Delimit Scope result_scope with result.
Notation "x <- c ;; k" := (bind c (fun x => k))
  (at level 61, c at next level, right associativity) : result_scope.

(** ** JavaScript numbers and the [Math] functions the engine calls *)

Module JsNum.

(** [x < y] as a test. *)
Definition ltb (x y : Q) : bool :=
  match x ?= y with
  | Lt => true
  | _ => false
  end.

(** [x > y] as a test. *)
Definition gtb (x y : Q) : bool := ltb y x.

(** [x >= y] as a test. *)
Definition geb (x y : Q) : bool := Qle_bool y x.

(** [x / y]; a zero divisor has no rational quotient. *)
Definition div (x y : Q) : result Q :=
  if Qeq_bool y 0 then DivisionError else Ok (x / y).

Definition Math_max (x y : Q) : Q := Qmax x y.
Definition Math_min (x y : Q) : Q := Qmin x y.

(** [Math.round]: the nearest integer, a tie going to the larger one. *)
Definition Math_round (x : Q) : Q := inject_Z (Qfloor (x + (1 # 2))).

End JsNum.

Import JsNum.

Infix "<?" := ltb (at level 70, no associativity) : Q_scope.
Infix ">?" := gtb (at level 70, no associativity) : Q_scope.
Infix ">=?" := geb (at level 70, no associativity) : Q_scope.

(** ** Binary64 arithmetic

    The finite binary64 numbers are the rationals [m * 2^E] with an integer
    significand [|m| < 2^53] and an exponent [E >= -1074], below [2^1024]
    in magnitude.  An operator of the language computes the exact result
    and rounds it to the nearest such number, a tie going to the even
    significand; a rounded result of magnitude [2^1024] or more is an
    infinity. *)

Definition pow2 (k : Z) : Q := 2 ^ k.

(** The exponent of a positive rational: [2^e <= x < 2^(e+1)]. *)
Definition ilog2 (x : Q) : Z :=
  let k := (Z.log2 (Qnum x) - Z.log2 (Zpos (Qden x)))%Z in
  if Qle_bool (pow2 k) x then k else (k - 1)%Z.

(** The nearest integer, a tie going to the even one. *)
Definition rne (x : Q) : Z :=
  let f := Qfloor x in
  match Qcompare (x - inject_Z f) (1 # 2) with
  | Lt => f
  | Gt => (f + 1)%Z
  | Eq => if Z.even f then f else (f + 1)%Z
  end.

(** The exponent of the unit in the last place at a positive [x]: 52 below
    the exponent of [x], and never below that of the subnormal numbers. *)
Definition ulp_exp (x : Q) : Z := Z.max (ilog2 x - 52) (-1074).

Definition round64_pos (x : Q) : Q :=
  inject_Z (rne (x / pow2 (ulp_exp x))) * pow2 (ulp_exp x).

(** Rounding to the nearest binary64 number, with no bound on the
    exponent. *)
Definition round64 (x : Q) : Q :=
  match Qcompare x 0 with
  | Eq => 0
  | Gt => round64_pos x
  | Lt => - round64_pos (- x)
  end.

(** The number a decimal literal of the source denotes. *)
Definition literal (x : Q) : Q := round64 x.

(** A number, or the mark that the computation produced an infinity or
    NaN, which the embedding does not follow further. *)
Inductive outcome (A : Type) : Type :=
| Finite (a : A)
| NotFinite.

Arguments Finite {A} a.
Arguments NotFinite {A}.

Definition outcome_bind {A B : Type} (c : outcome A) (k : A -> outcome B)
  : outcome B :=
  match c with
  | Finite a => k a
  | NotFinite => NotFinite
  end.

Declare Scope outcome_scope.
Delimit Scope outcome_scope with outcome.
Notation "x <- c ;; k" := (outcome_bind c (fun x => k))
  (at level 61, c at next level, right associativity) : outcome_scope.

(** The result of an operator whose exact value is [x]. *)
Definition fl (x : Q) : outcome Q :=
  let r := round64 x in
  if Qabs r <? pow2 1024 then Finite r else NotFinite.

Definition add64 (x y : Q) : outcome Q := fl (x + y).
Definition sub64 (x y : Q) : outcome Q := fl (x - y).
Definition mul64 (x y : Q) : outcome Q := fl (x * y).

(** [x / y]; by zero the quotient is an infinity or NaN. *)
Definition div64 (x y : Q) : outcome Q :=
  if Qeq_bool y 0 then NotFinite else fl (x / y).

(** ** The data model *)

Inductive VitalityState : Type :=
| dormant
| recovering
| stable
| thriving
| supernova.

Record RawMetrics : Type := {
  commits : Q;
  prsMerged : Q;
  staleIssues : Q;
  totalIssues : Q;
  totalStars : Q;
  totalForks : Q;
  contributors : Q;
  lastCommitDate : string
}.

Inductive MascotAnimation : Type :=
| anim_idle
| anim_pulse
| anim_breathe
| anim_orbit
| anim_supernova.

Record StateConfig : Type := {
  label : string;
  emoji : string;
  color : string;
  glowColor : string;
  description : string;
  mascotAnimation : MascotAnimation;
  particleCount : Q;
  ringColor : string
}.

Inductive Trend : Type :=
| rising
| falling
| flat.

Record Breakdown : Type := {
  commitContribution : Q;
  prContribution : Q;
  stalePenalty : Q
}.

Record VitalityReport : Type := {
  score : Q;
  normalizedScore : Q;
  state : VitalityState;
  breakdown : Breakdown;
  stateConfig : StateConfig;
  trend : Trend;
  healthPercentage : Q
}.

(** ** The state configuration map *)

Definition STATE_CONFIGS (s : VitalityState) : StateConfig :=
  match s with
  | dormant => {|
      label := "Dormant";
      emoji := "🌑";
      color := "text-pulse-muted";
      glowColor := "#4a5080";
      description := "Repository activity has ceased. Awaiting revival.";
      mascotAnimation := anim_idle;
      particleCount := 0;
      ringColor := "conic-gradient(from 0deg, #4a5080, #2a2d4a, #4a5080)" |}
  | recovering => {|
      label := "Recovering";
      emoji := "🌒";
      color := "text-pulse-amber";
      glowColor := "#ffb830";
      description := "Faint signals detected. Growth patterns emerging.";
      mascotAnimation := anim_breathe;
      particleCount := 4;
      ringColor := "conic-gradient(from 0deg, #ffb830, #ff6b00, #ffb830)" |}
  | stable => {|
      label := "Stable";
      emoji := "🌗";
      color := "text-pulse-cyan";
      glowColor := "#00d4ff";
      description := "Consistent cadence. The system holds steady.";
      mascotAnimation := anim_pulse;
      particleCount := 8;
      ringColor := "conic-gradient(from 0deg, #00d4ff, #0066ff, #00d4ff)" |}
  | thriving => {|
      label := "Thriving";
      emoji := "🌕";
      color := "text-pulse-green";
      glowColor := "#00ff9d";
      description := "Peak performance. High contributor momentum detected.";
      mascotAnimation := anim_orbit;
      particleCount := 16;
      ringColor :=
        "conic-gradient(from 0deg, #00ff9d, #00b4d8, #6c63ff, #00ff9d)" |}
  | supernova => {|
      label := "Supernova";
      emoji := "✨";
      color := "text-yellow-300";
      glowColor := "#ff6b35";
      description := "CRITICAL MASS ACHIEVED. Extraordinary activity surge.";
      mascotAnimation := anim_supernova;
      particleCount := 32;
      ringColor :=
        "conic-gradient(from 0deg, #ff6b35, #ff4069, #6c63ff, #00ff9d, #ffb830, #ff6b35)" |}
  end.

(** ** The core formula *)

Definition resolveState (score : Q) : VitalityState :=
  if score <? 0 then dormant
  else if score <? 25 then recovering
  else if score <? 60 then stable
  else if score <? 90 then thriving
  else supernova.

Definition MAX_EXPECTED_SCORE : Q := 120.

Open Scope result_scope.

Definition computeVitality (metrics : RawMetrics) : result VitalityReport :=
  let commitContribution := commits metrics * 0.5 in
  let prContribution := prsMerged metrics * 0.3 in
  let stalePenalty := staleIssues metrics * 0.2 in

  let score := commitContribution + prContribution - stalePenalty in

  scaled <- div score MAX_EXPECTED_SCORE ;;
  let normalizedScore := Math_max 0 (Math_min 100 (scaled * 100)) in

  let state := resolveState score in
  let stateConfig := STATE_CONFIGS state in

  staleRatio <- (if totalIssues metrics >? 0
                 then div (staleIssues metrics) (totalIssues metrics)
                 else Ok 0) ;;
  let healthPercentage :=
    Math_max 0 (Math_min 100 (normalizedScore * (1 - staleRatio * 0.5))) in

  let commitMomentum := commits metrics * 0.5 in
  let closureMomentum := prsMerged metrics * 0.3 in
  let trend :=
    if commitMomentum >? closureMomentum + 10 then rising
    else if closureMomentum >? commitMomentum + 10 then falling
    else flat in

  score' <- div (Math_round (score * 10)) 10 ;;
  normalizedScore' <- div (Math_round (normalizedScore * 10)) 10 ;;
  commitContribution' <- div (Math_round (commitContribution * 10)) 10 ;;
  prContribution' <- div (Math_round (prContribution * 10)) 10 ;;
  stalePenalty' <- div (Math_round (stalePenalty * 10)) 10 ;;
  Ok {|
    score := score';
    normalizedScore := normalizedScore';
    state := state;
    breakdown := {|
      commitContribution := commitContribution';
      prContribution := prContribution';
      stalePenalty := stalePenalty' |};
    stateConfig := stateConfig;
    trend := trend;
    healthPercentage := Math_round healthPercentage |}.

Close Scope result_scope.

(** The same function with the arithmetic of the code.  The arguments are
    read as binary64 numbers. *)

Open Scope outcome_scope.

Definition computeVitality64 (metrics : RawMetrics) : outcome VitalityReport :=
  commitContribution <- mul64 (commits metrics) 0.5 ;;
  prContribution <- mul64 (prsMerged metrics) (literal 0.3) ;;
  stalePenalty <- mul64 (staleIssues metrics) (literal 0.2) ;;

  gained <- add64 commitContribution prContribution ;;
  score <- sub64 gained stalePenalty ;;

  scaled <- div64 score MAX_EXPECTED_SCORE ;;
  percent <- mul64 scaled 100 ;;
  let normalizedScore := Math_max 0 (Math_min 100 percent) in

  let state := resolveState score in
  let stateConfig := STATE_CONFIGS state in

  staleRatio <- (if totalIssues metrics >? 0
                 then div64 (staleIssues metrics) (totalIssues metrics)
                 else Finite 0) ;;
  halfRatio <- mul64 staleRatio 0.5 ;;
  kept <- sub64 1 halfRatio ;;
  discounted <- mul64 normalizedScore kept ;;
  let healthPercentage := Math_max 0 (Math_min 100 discounted) in

  commitMomentum <- mul64 (commits metrics) 0.5 ;;
  closureMomentum <- mul64 (prsMerged metrics) (literal 0.3) ;;
  closureAhead <- add64 closureMomentum 10 ;;
  trend <- (if commitMomentum >? closureAhead then Finite rising
            else (commitAhead <- add64 commitMomentum 10 ;;
                  Finite (if closureMomentum >? commitAhead
                          then falling else flat))) ;;

  score10 <- mul64 score 10 ;;
  score' <- div64 (Math_round score10) 10 ;;
  normalizedScore10 <- mul64 normalizedScore 10 ;;
  normalizedScore' <- div64 (Math_round normalizedScore10) 10 ;;
  commitContribution10 <- mul64 commitContribution 10 ;;
  commitContribution' <- div64 (Math_round commitContribution10) 10 ;;
  prContribution10 <- mul64 prContribution 10 ;;
  prContribution' <- div64 (Math_round prContribution10) 10 ;;
  stalePenalty10 <- mul64 stalePenalty 10 ;;
  stalePenalty' <- div64 (Math_round stalePenalty10) 10 ;;
  Finite {|
    score := score';
    normalizedScore := normalizedScore';
    state := state;
    breakdown := {|
      commitContribution := commitContribution';
      prContribution := prContribution';
      stalePenalty := stalePenalty' |};
    stateConfig := stateConfig;
    trend := trend;
    healthPercentage := Math_round healthPercentage |}.

Close Scope outcome_scope.

(** ** Utility: large numbers for display

    [toFixed(1)] and [toString] are built-ins of the language, not code of
    the engine: [formatMetricValue] is embedded over any pair of renderers
    and instantiated below with decimal renderers for counts. *)

Section FormatMetricValue.

Variable Number_toFixed1 : Q -> string.
Variable Number_toString : Q -> string.

Definition formatMetricValue (value : Q) : result string :=
  if value >=? 1000000 then
    (millions <- div value 1000000 ;;
     Ok (Number_toFixed1 millions ++ "M")%string)%result
  else if value >=? 1000 then
    (thousands <- div value 1000 ;;
     Ok (Number_toFixed1 thousands ++ "K")%string)%result
  else Ok (Number_toString value).

End FormatMetricValue.

(** Decimal renderers.  [toFixed1_decimal x] prints the integer nearest to
    [10 * |x|] (a tie going up) with its last digit after the point;
    [toString_integer] prints the digits of an integer-valued number. *)

Definition Z_digits (z : Z) : string := NilZero.string_of_int (Z.to_int z).

Definition toFixed1_decimal (x : Q) : string :=
  let tenths := Qfloor (Qabs x * 10 + (1 # 2)) in
  ((if ltb x 0 then "-" else "")
     ++ Z_digits (tenths / 10) ++ "." ++ Z_digits (tenths mod 10))%string.

Definition toString_integer (x : Q) : string := Z_digits (Qfloor x).

(** [formatMetricValue] on a star or fork count. *)
Definition formatCount (n : Z) : result string :=
  formatMetricValue toFixed1_decimal toString_integer (inject_Z n).

(** ** Quantities the properties are stated with *)

(** The weighted sum before any rounding (the [score] local of
    [computeVitality]). *)
Definition rawScore (m : RawMetrics) : Q :=
  commits m * 0.5 + prsMerged m * 0.3 - staleIssues m * 0.2.

(** [clamp x lo hi]: [x] brought into the interval from [lo] to [hi]. *)
Definition clamp (x lo hi : Q) : Q :=
  if x <? lo then lo else if hi <? x then hi else x.

(** The normalized score before rounding (the [normalizedScore] local). *)
Definition rawNormalized (m : RawMetrics) : Q :=
  Math_max 0 (Math_min 100 (rawScore m / MAX_EXPECTED_SCORE * 100)).

(** The stale ratio with its guard (the [staleRatio] local). *)
Definition staleRatioOf (m : RawMetrics) : Q :=
  if totalIssues m >? 0 then staleIssues m / totalIssues m else 0.

(** The health percentage before rounding (the [healthPercentage] local). *)
Definition rawHealth (m : RawMetrics) : Q :=
  Math_max 0 (Math_min 100 (rawNormalized m * (1 - staleRatioOf m * 0.5))).

(** The momentum comparison (the [trend] local). *)
Definition trendOf (m : RawMetrics) : Trend :=
  if commits m * 0.5 >? prsMerged m * 0.3 + 10 then rising
  else if prsMerged m * 0.3 >? commits m * 0.5 + 10 then falling
  else flat.

(** Rounding to one decimal place, as the report does. *)
Definition round1 (x : Q) : Q := Math_round (x * 10) / 10.

(** The report in closed form; [computeVitality_reportOf] shows that it is
    what [computeVitality] returns. *)
Definition reportOf (m : RawMetrics) : VitalityReport := {|
  score := round1 (rawScore m);
  normalizedScore := round1 (rawNormalized m);
  state := resolveState (rawScore m);
  breakdown := {|
    commitContribution := round1 (commits m * 0.5);
    prContribution := round1 (prsMerged m * 0.3);
    stalePenalty := round1 (staleIssues m * 0.2) |};
  stateConfig := STATE_CONFIGS (resolveState (rawScore m));
  trend := trendOf m;
  healthPercentage := Math_round (rawHealth m) |}.

(** The same quantities in binary64 arithmetic: the locals of
    [computeVitality64]. *)

Definition commit64 (m : RawMetrics) : Q := round64 (commits m * 0.5).

Definition pr64 (m : RawMetrics) : Q :=
  round64 (prsMerged m * literal 0.3).

Definition stale64 (m : RawMetrics) : Q :=
  round64 (staleIssues m * literal 0.2).

(** The [score] local. *)
Definition score64 (m : RawMetrics) : Q :=
  round64 (round64 (commit64 m + pr64 m) - stale64 m).

(** The [normalizedScore] local, before the report rounds it to one
    decimal. *)
Definition normalized64 (m : RawMetrics) : Q :=
  Math_max 0
    (Math_min 100 (round64 (round64 (score64 m / MAX_EXPECTED_SCORE) * 100))).

(** The [staleRatio] local. *)
Definition staleRatio64 (m : RawMetrics) : Q :=
  if totalIssues m >? 0 then round64 (staleIssues m / totalIssues m) else 0.

(** [1 - staleRatio * 0.5]. *)
Definition kept64 (m : RawMetrics) : Q :=
  round64 (1 - round64 (staleRatio64 m * 0.5)).

(** The [healthPercentage] local. *)
Definition health64 (m : RawMetrics) : Q :=
  Math_max 0 (Math_min 100 (round64 (normalized64 m * kept64 m))).

(** The [trend] local. *)
Definition trend64 (m : RawMetrics) : Trend :=
  if commit64 m >? round64 (pr64 m + 10) then rising
  else if pr64 m >? round64 (commit64 m + 10) then falling
  else flat.

(** [Math.round(x * 10) / 10]. *)
Definition oneDecimal64 (x : Q) : Q :=
  round64 (Math_round (round64 (x * 10)) / 10).

(** The report in closed form; [computeVitality64_inv] shows that it is the
    only report [computeVitality64] returns and
    [computeVitality64_reportOf64] that it is returned on counts. *)
Definition reportOf64 (m : RawMetrics) : VitalityReport := {|
  score := oneDecimal64 (score64 m);
  normalizedScore := oneDecimal64 (normalized64 m);
  state := resolveState (score64 m);
  breakdown := {|
    commitContribution := oneDecimal64 (commit64 m);
    prContribution := oneDecimal64 (pr64 m);
    stalePenalty := oneDecimal64 (stale64 m) |};
  stateConfig := STATE_CONFIGS (resolveState (score64 m));
  trend := trend64 m;
  healthPercentage := Math_round (health64 m) |}.

(** The position of a state in the vitality order
    dormant < recovering < stable < thriving < supernova. *)
Definition stateRank (s : VitalityState) : nat :=
  match s with
  | dormant => 0
  | recovering => 1
  | stable => 2
  | thriving => 3
  | supernova => 4
  end.

Definition state_le (s1 s2 : VitalityState) : Prop :=
  (stateRank s1 <= stateRank s2)%nat.

Definition state_lt (s1 s2 : VitalityState) : Prop :=
  (stateRank s1 < stateRank s2)%nat.

Definition allStates : list VitalityState :=
  [dormant; recovering; stable; thriving; supernova].

(** Counts as the callers pass them: non-negative integers. *)
Definition isCount (x : Q) : Prop := exists n : Z, (0 <= n)%Z /\ x == inject_Z n.

Definition integerCounts (m : RawMetrics) : Prop :=
  isCount (commits m) /\ isCount (prsMerged m) /\
  isCount (staleIssues m) /\ isCount (totalIssues m).

(** Counts in the range where the binary64 arithmetic of the engine stays
    close to the exact one: non-negative integers up to [2^40], about
    1.1e12. *)
Definition COUNT_LIMIT : Z := 2 ^ 40.

Definition isCount64 (x : Q) : Prop :=
  exists n : Z, (0 <= n <= COUNT_LIMIT)%Z /\ x == inject_Z n.

Definition counts64 (m : RawMetrics) : Prop :=
  isCount64 (commits m) /\ isCount64 (prsMerged m) /\
  isCount64 (staleIssues m) /\ isCount64 (totalIssues m).

(** A metrics record of integer counts. *)
Definition metricsOf (c p s t : Z) : RawMetrics := {|
  commits := inject_Z c;
  prsMerged := inject_Z p;
  staleIssues := inject_Z s;
  totalIssues := inject_Z t;
  totalStars := 0;
  totalForks := 0;
  contributors := 0;
  lastCommitDate := "2024-01-01T00:00:00.000Z" |}.

(** A report read field by field, numbers up to [==]. *)
Definition reportIs (r : VitalityReport) (sc ns : Q) (st : VitalityState)
    (cc pc sp : Q) (tr : Trend) (hp : Q) : Prop :=
  score r == sc /\ normalizedScore r == ns /\ state r = st /\
  commitContribution (breakdown r) == cc /\
  prContribution (breakdown r) == pc /\
  stalePenalty (breakdown r) == sp /\
  trend r = tr /\ healthPercentage r == hp /\
  stateConfig r = STATE_CONFIGS st.

(** Two reports with the same fields, numbers up to [==]. *)
Definition reportEq (r1 r2 : VitalityReport) : Prop :=
  score r1 == score r2 /\ normalizedScore r1 == normalizedScore r2 /\
  state r1 = state r2 /\
  commitContribution (breakdown r1) == commitContribution (breakdown r2) /\
  prContribution (breakdown r1) == prContribution (breakdown r2) /\
  stalePenalty (breakdown r1) == stalePenalty (breakdown r2) /\
  stateConfig r1 = stateConfig r2 /\ trend r1 = trend r2 /\
  healthPercentage r1 == healthPercentage r2.

(** ** Mock data factory

    [generateMockMetrics] draws eight numbers from a closure, [random], that
    reads the captured [seed] and increments it.  The closure is a state
    transformer on the seed.  [Math.sin], the clock and [toISOString] are
    built-ins and stay parameters. *)

(** [Math.floor]. *)
Definition Math_floor (x : Q) : Q := inject_Z (Qfloor x).

(** Computations that read and advance the seed. *)
Definition Gen (A : Type) : Type := Q -> A * Q.

Definition gen_ret {A : Type} (a : A) : Gen A := fun seed => (a, seed).

Definition gen_bind {A B : Type} (c : Gen A) (k : A -> Gen B) : Gen B :=
  fun seed => let (a, seed') := c seed in k a seed'.

Declare Scope gen_scope.
Delimit Scope gen_scope with gen.
Notation "x <- c ;; k" := (gen_bind c (fun x => k))
  (at level 61, c at next level, right associativity) : gen_scope.

Section MockMetrics.

Variable Math_sin : Q -> Q.
Variable Date_now : Q.
Variable Date_toISOString : Q -> string.

(** [const x = Math.sin(seed++) * 10000; return Math.floor((x -
    Math.floor(x)) * (max - min + 1)) + min]. *)
Definition random (min max : Q) : Gen Q :=
  fun seed =>
    let x := Math_sin seed * 10000 in
    (Math_floor ((x - Math_floor x) * (max - min + 1)) + min, seed + 1).

Definition mockMetricsGen : Gen RawMetrics :=
  (commits <- random 5 150 ;;
   prsMerged <- random 2 60 ;;
   totalIssues <- random 10 80 ;;
   staleIssues <- random 0 (Math_floor (totalIssues * 0.6)) ;;
   totalStars <- random 20 5000 ;;
   totalForks <- random 5 800 ;;
   contributors <- random 3 50 ;;
   daysAgo <- random 0 7 ;;
   gen_ret {|
     commits := commits;
     prsMerged := prsMerged;
     staleIssues := staleIssues;
     totalIssues := totalIssues;
     totalStars := totalStars;
     totalForks := totalForks;
     contributors := contributors;
     lastCommitDate := Date_toISOString (Date_now - daysAgo * 86400000) |})%gen.

Definition generateMockMetrics (seed : Q) : RawMetrics :=
  fst (mockMetricsGen seed).

End MockMetrics.

(** ** Utility: relative time

    The time of a date is a number of milliseconds, or NaN when the string
    does not parse; NaN is [None], it propagates through the arithmetic and
    makes every comparison false.  Parsing and the locale rendering are
    built-ins and stay parameters; the clock reading is an argument. *)

Definition nan_sub (x : Q) (y : option Q) : option Q :=
  option_map (fun t => x - t) y.

(** [Math.floor(x / k)]. *)
Definition nan_floor_div (x : option Q) (k : Q) : result (option Q) :=
  match x with
  | None => Ok None
  | Some d => (q <- div d k ;; Ok (Some (Math_floor q)))%result
  end.

(** [x < k]. *)
Definition nan_ltb (x : option Q) (k : Q) : bool :=
  match x with
  | None => false
  | Some v => v <? k
  end.

(** A whole number, or NaN, inside a template string. *)
Definition nan_digits (x : option Q) : string :=
  match x with
  | None => "NaN"
  | Some v => Z_digits (Qfloor v)
  end.

Section RelativeTime.

Variable Date_getTime : string -> option Q.
Variable Date_toLocaleDateString : string -> string.

Definition relativeTime (now : Q) (isoDate : string) : result string :=
  (let diff := nan_sub now (Date_getTime isoDate) in
   minutes <- nan_floor_div diff 60000 ;;
   hours <- nan_floor_div diff 3600000 ;;
   days <- nan_floor_div diff 86400000 ;;
   if nan_ltb minutes 1 then Ok "just now"%string
   else if nan_ltb minutes 60 then Ok (nan_digits minutes ++ "m ago")%string
   else if nan_ltb hours 24 then Ok (nan_digits hours ++ "h ago")%string
   else if nan_ltb days 7 then Ok (nan_digits days ++ "d ago")%string
   else Ok (Date_toLocaleDateString isoDate))%result.

End RelativeTime.

(** ** The mascot's particles ([components/MascotCanvas.tsx])

    [Particle] computes the geometry and timing of one orbiting particle;
    the canvas draws [stateConfig.particleCount] of them unless reduced
    motion is preferred.  [Math.PI] (a double, hence a rational), [Math.cos]
    and [Math.sin] are built-ins and stay parameters. *)






Section Particles.

Variable Math_PI : Q.
Variable Math_cos : Q -> Q.
Variable Math_sin : Q -> Q.



End Particles.


(** ** Colours

    The components append a two-digit alpha to [glowColor], as in
    [`${glowColor}18`]; that is a colour when [glowColor] is a [#] and six
    hexadecimal digits. *)

Definition isHexDigit (c : ascii) : bool :=
  let n := nat_of_ascii c in
  ((48 <=? n) && (n <=? 57) || (97 <=? n) && (n <=? 102)
   || (65 <=? n) && (n <=? 70))%nat.

Fixpoint allHex (s : string) : bool :=
  match s with
  | EmptyString => true
  | String c s' => isHexDigit c && allHex s'
  end.

(** [#] followed by [n] hexadecimal digits. *)
Definition isHexColor (n : nat) (s : string) : bool :=
  match s with
  | String "#" digits => (String.length digits =? n)%nat && allHex digits
  | _ => false
  end.

(** ** The GitHub client ([lib/github-client.ts])

    [fetchDashboardData] turns five API responses into the dashboard data
    and falls back to mock data when the token is missing or a request
    fails.  The network is outside the embedding: each [ghFetch] is read by
    its outcome, the decoded body or [None] when it threw.  The clock is
    read as one instant for the whole call. *)

Module GitHubClient.

Record GitHubRepo : Type := { owner : string; repo : string }.

Record CommitActivity : Type := {
  ca_sha : string;
  ca_message : string;
  ca_author : string;
  ca_date : string;
  ca_url : string
}.

Inductive PullRequestState : Type := pr_open | pr_closed | pr_merged.

Record PullRequest : Type := {
  pr_number : Q;
  pr_title : string;
  pr_state : PullRequestState;
  pr_mergedAt : option string;
  pr_author : string;
  pr_url : string
}.

Record Issue : Type := {
  is_number : Q;
  is_title : string;
  is_state : string;
  is_createdAt : string;
  is_updatedAt : string;
  isStale : bool;
  is_url : string;
  is_labels : list string
}.

Record RepoInfo : Type := {
  ri_name : string;
  ri_description : string;
  ri_stars : Q;
  ri_forks : Q;
  ri_url : string
}.

Record FullDashboardData : Type := {
  dd_repo : RepoInfo;
  metrics : RawMetrics;
  recentCommits : list CommitActivity;
  recentPRs : list PullRequest;
  recentIssues : list Issue;
  fetchedAt : string;
  isMockData : bool
}.

(** The API type stubs. *)

Record GHRepo : Type := {
  full_name : string;
  gh_description : option string;
  stargazers_count : Q;
  forks_count : Q;
  repo_html_url : string
}.

Record GHCommitAuthor : Type := { author_name : string; author_date : string }.

Record GHCommit : Type := {
  gh_sha : string;
  commit_message : string;
  commit_author : option GHCommitAuthor;
  author_login : option string;
  commit_html_url : string
}.

Record GHPR : Type := {
  gh_pr_number : Q;
  gh_pr_title : string;
  merged_at : option string;
  user_login : option string;
  pr_html_url : string
}.

Record GHIssue : Type := {
  gh_is_number : Q;
  gh_is_title : string;
  gh_is_state : string;
  created_at : string;
  updated_at : string;
  issue_html_url : string;
  pull_request : bool;
  label_names : list string
}.

(** The outcome of the five requests of one call. *)
Record Responses : Type := {
  repoData : option GHRepo;
  commitsData : option (list GHCommit);
  prsData : option (list GHPR);
  issuesData : option (list GHIssue);
  contributorsData : option (list Q)
}.

Definition STALE_THRESHOLD_MS : Q := 30 * 24 * 60 * 60 * 1000.

(** [s.slice(0, n)]. *)
Definition slice0 (n : nat) (s : string) : string := substring 0 n s.

(** [s.split("\n")[0]]: the text before the first line feed. *)
Fixpoint firstLine (s : string) : string :=
  match s with
  | EmptyString => EmptyString
  | String c s' =>
      if Ascii.eqb c "010" then EmptyString else String c (firstLine s')
  end.

(** [l.length]. *)
Definition Array_length {A : Type} (l : list A) : Q :=
  inject_Z (Z.of_nat (length l)).

(** [x > k] on a number that may be NaN. *)
Definition nan_gtb (x : option Q) (k : Q) : bool :=
  match x with
  | None => false
  | Some v => v >? k
  end.

(** No line feed in a string. *)
Fixpoint noLineFeed (s : string) : bool :=
  match s with
  | EmptyString => true
  | String c s' => negb (Ascii.eqb c "010") && noLineFeed s'
  end.

(** The shape of the three lists of a dashboard. *)
Definition wellShaped (d : FullDashboardData) : Prop :=
  (length (recentCommits d) <= 10)%nat /\
  (length (recentPRs d) <= 10)%nat /\
  (length (recentIssues d) <= 15)%nat /\
  Forall (fun x => (String.length (ca_sha x) <= 7)%nat /\
                   (String.length (ca_message x) <= 80)%nat /\
                   noLineFeed (ca_message x) = true) (recentCommits d) /\
  Forall (fun x => pr_state x = pr_merged /\ pr_mergedAt x <> None /\
                   (String.length (pr_title x) <= 80)%nat) (recentPRs d) /\
  Forall (fun x => (String.length (is_title x) <= 80)%nat) (recentIssues d).

Section Client.

Variable Date_now : Q.
Variable Date_getTime : string -> option Q.
Variable Date_toISOString : Q -> string.
Variable Math_sin : Q -> Q.
(** The text of the [i]-th [Math.random().toString(16)]. *)
Variable Math_random_hex : nat -> string.

(** [Date.now() - new Date(updated_at).getTime() > STALE_THRESHOLD_MS]. *)
Definition staleAt (updated_at : string) : bool :=
  nan_gtb (nan_sub Date_now (Date_getTime updated_at)) STALE_THRESHOLD_MS.

Definition nthString (i : nat) (l : list string) : string := nth i l ""%string.

Definition mockAuthors : list string :=
  ["alice"; "bob"; "carol"; "dave"; "eve"]%string.

Definition buildMockDashboard (target : GitHubRepo) : FullDashboardData :=
  let metrics := generateMockMetrics Math_sin Date_now Date_toISOString Date_now in
  let mockCommits :=
    map (fun i => {|
      ca_sha := substring 2 7 (Math_random_hex i);
      ca_message := nthString i [
        "feat: implement edge-optimized caching layer";
        "fix: resolve race condition in vitality engine";
        "docs: update API integration guide";
        "chore: upgrade dependencies to latest stable";
        "refactor: extract mascot state machine";
        "perf: optimize SVG rendering pipeline";
        "test: add integration tests for GitHub client";
        "feat: add supernova animation sequence"]%string;
      ca_author := nthString (i mod 5) mockAuthors;
      ca_date := Date_toISOString
                   (Date_now - inject_Z (Z.of_nat i) * 6 * 3600000);
      ca_url := "#" |}) (seq 0 8) in
  let mockPRs :=
    map (fun i => {|
      pr_number := 100 + inject_Z (Z.of_nat i);
      pr_title := nthString i [
        "Add Cloudflare KV caching for GitHub data";
        "Mobile navigation z-index fix";
        "Vitality score normalization improvements";
        "Dark mode refinements for MetricGrid";
        "TypeScript strict mode compliance"]%string;
      pr_state := pr_merged;
      pr_mergedAt := Some (Date_toISOString
                             (Date_now - inject_Z (Z.of_nat i) * 2 * 86400000));
      pr_author := nthString i mockAuthors;
      pr_url := "#" |}) (seq 0 5) in
  let mockIssues :=
    map (fun i => {|
      is_number := 50 + inject_Z (Z.of_nat i);
      is_title := nthString i [
        "Mascot flickers on Safari iOS 17";
        "Edge runtime crashes with large repos";
        "Add support for GitLab API";
        "Timeline scroll performance on older devices";
        "Accessibility: keyboard navigation in BottomNav";
        "Feature: export vitality report as PDF"]%string;
      is_state := "open";
      is_createdAt := Date_toISOString
                        (Date_now - inject_Z (Z.of_nat i) * 5 * 86400000);
      is_updatedAt := Date_toISOString
                        (Date_now - inject_Z (Z.of_nat i) * 8 * 86400000);
      isStale := inject_Z (Z.of_nat i) >? 3;
      is_url := "#";
      is_labels := [nthString i ["bug"; "ui"; "enhancement"; "discussion";
                                 "accessibility"; "feature"]%string] |})
        (seq 0 6) in
  {| dd_repo := {|
       ri_name := (owner target ++ "/" ++ repo target)%string;
       ri_description :=
         "An edge-optimized community dashboard powered by NexusPulse OS. [MOCK DATA — set GITHUB_TOKEN to use live data]";
       ri_stars := totalStars metrics;
       ri_forks := totalForks metrics;
       ri_url := ("https://github.com/" ++ owner target ++ "/"
                    ++ repo target)%string |};
     metrics := metrics;
     recentCommits := mockCommits;
     recentPRs := mockPRs;
     recentIssues := mockIssues;
     fetchedAt := Date_toISOString Date_now;
     isMockData := true |}.

Definition notPullRequest (i : GHIssue) : bool := negb (pull_request i).

Definition isMerged (pr : GHPR) : bool :=
  match merged_at pr with
  | Some _ => true
  | None => false
  end.

(** The body of the [try] block, once the five requests have answered. *)
Definition liveDashboard (repoData : GHRepo) (commitsData : list GHCommit)
    (prsData : list GHPR) (issuesData : list GHIssue)
    (contributorsData : list Q) : FullDashboardData :=
  let recentCommits :=
    map (fun c => {|
      ca_sha := slice0 7 (gh_sha c);
      ca_message := slice0 80 (firstLine (commit_message c));
      ca_author :=
        match commit_author c with
        | Some a => author_name a
        | None => match author_login c with
                  | Some login => login
                  | None => "unknown"%string
                  end
        end;
      ca_date :=
        match commit_author c with
        | Some a => author_date a
        | None => Date_toISOString Date_now
        end;
      ca_url := commit_html_url c |}) (firstn 10 commitsData) in
  let mergedPRs := filter isMerged prsData in
  let recentPRs :=
    map (fun pr => {|
      pr_number := gh_pr_number pr;
      pr_title := slice0 80 (gh_pr_title pr);
      pr_state := pr_merged;
      pr_mergedAt := merged_at pr;
      pr_author :=
        match user_login pr with
        | Some login => login
        | None => "ghost"%string
        end;
      pr_url := pr_html_url pr |}) (firstn 10 mergedPRs) in
  let recentIssues :=
    map (fun issue =>
      let isStale := staleAt (updated_at issue) in
      {| is_number := gh_is_number issue;
         is_title := slice0 80 (gh_is_title issue);
         is_state := gh_is_state issue;
         is_createdAt := created_at issue;
         is_updatedAt := updated_at issue;
         isStale := isStale;
         is_url := issue_html_url issue;
         is_labels := label_names issue |})
      (firstn 15 (filter notPullRequest issuesData)) in
  let staleIssues :=
    Array_length
      (filter (fun i => staleAt (updated_at i))
              (filter notPullRequest issuesData)) in
  let metrics := {|
    commits := Array_length commitsData;
    prsMerged := Array_length mergedPRs;
    staleIssues := staleIssues;
    totalIssues := Array_length (filter notPullRequest issuesData);
    totalStars := stargazers_count repoData;
    totalForks := forks_count repoData;
    contributors := Array_length contributorsData;
    lastCommitDate :=
      match commitsData with
      | c :: _ => match commit_author c with
                  | Some a => author_date a
                  | None => Date_toISOString Date_now
                  end
      | [] => Date_toISOString Date_now
      end |} in
  {| dd_repo := {|
       ri_name := full_name repoData;
       ri_description :=
         match gh_description repoData with
         | Some d => d
         | None => "No description provided."%string
         end;
       ri_stars := stargazers_count repoData;
       ri_forks := forks_count repoData;
       ri_url := repo_html_url repoData |};
     metrics := metrics;
     recentCommits := recentCommits;
     recentPRs := recentPRs;
     recentIssues := recentIssues;
     fetchedAt := Date_toISOString Date_now;
     isMockData := false |}.

(** [!token || token === "mock"]. *)
Definition noToken (token : option string) : bool :=
  match token with
  | None => true
  | Some t => String.eqb t "" || String.eqb t "mock"
  end.

Definition fetchDashboardData (token : option string) (responses : Responses)
    (target : GitHubRepo) : FullDashboardData :=
  if noToken token then buildMockDashboard target
  else
    match repoData responses, commitsData responses, prsData responses,
          issuesData responses, contributorsData responses with
    | Some r, Some c, Some p, Some i, Some k => liveDashboard r c p i k
    | _, _, _, _, _ => buildMockDashboard target
    end.

End Client.

End GitHubClient.

(** Stand-ins for the built-ins, used to run the functions on examples. *)
Definition sampleSine (x : Q) : Q := (x * x + 3) / 7.

Definition sampleGetTime (s : string) : option Q :=
  if String.eqb s "" then None else Some (inject_Z (Z.of_nat (String.length s)) * 1000000).

Definition sampleLocale (s : string) : string := ("on " ++ s)%string.

Definition sampleIssue (n : Q) (updated : string) (isPR : bool)
  : GitHubClient.GHIssue := {|
  GitHubClient.gh_is_number := n;
  GitHubClient.gh_is_title := "Crash on start";
  GitHubClient.gh_is_state := "open";
  GitHubClient.created_at := "a";
  GitHubClient.updated_at := updated;
  GitHubClient.issue_html_url := "#";
  GitHubClient.pull_request := isPR;
  GitHubClient.label_names := [] |}.

(** Three requests' worth of issues: one stale, one pull request, one
    fresh, for a clock at 2597500000 ms. *)
Definition sampleResponses : GitHubClient.Responses := {|
  GitHubClient.repoData := Some {|
    GitHubClient.full_name := "octo/demo";
    GitHubClient.gh_description := None;
    GitHubClient.stargazers_count := 1540;
    GitHubClient.forks_count := 12;
    GitHubClient.repo_html_url := "#" |};
  GitHubClient.commitsData := Some [];
  GitHubClient.prsData := Some [];
  GitHubClient.issuesData :=
    Some [sampleIssue 1 "abcde" false; sampleIssue 2 "a" true;
          sampleIssue 3 "abcdef" false];
  GitHubClient.contributorsData := Some [] |}.

Definition sampleTarget : GitHubClient.GitHubRepo :=
  {| GitHubClient.owner := "octo"; GitHubClient.repo := "demo" |}.

(** * Properties *)

(** ** Comparisons and rounding *)

Lemma ltb_lt (x y : Q) : (x <? y) = true <-> x < y.
Proof.
  unfold ltb. rewrite Qlt_alt. destruct (x ?= y); split; congruence.
Qed.

Lemma ltb_ge (x y : Q) : (x <? y) = false <-> y <= x.
Proof.
  pose proof (ltb_lt x y) as H. destruct (x <? y); split; intros H1.
  - discriminate.
  - assert (x < y) by now apply H. lra.
  - destruct (Qlt_le_dec x y) as [L|L]; [apply H in L; discriminate | exact L].
  - reflexivity.
Qed.

Lemma gtb_gt (x y : Q) : (x >? y) = true <-> y < x.
Proof. apply ltb_lt. Qed.

Lemma gtb_le (x y : Q) : (x >? y) = false <-> x <= y.
Proof. apply ltb_ge. Qed.

Lemma geb_ge (x y : Q) : (x >=? y) = true <-> y <= x.
Proof. apply Qle_bool_iff. Qed.

Lemma geb_lt (x y : Q) : (x >=? y) = false <-> x < y.
Proof.
  pose proof (geb_ge x y) as H. destruct (x >=? y); split; intros H1.
  - discriminate.
  - assert (y <= x) by now apply H. lra.
  - destruct (Qlt_le_dec x y) as [L|L]; [exact L | apply H in L; discriminate].
  - reflexivity.
Qed.

(** Case analysis on a comparison, leaving its meaning in the context. *)
Ltac case_ltb x y :=
  let E := fresh "E" in
  destruct (x <? y) eqn:E; [apply ltb_lt in E | apply ltb_ge in E].

Ltac case_gtb x y :=
  let E := fresh "E" in
  destruct (x >? y) eqn:E; [apply gtb_gt in E | apply gtb_le in E].

Lemma div_nonzero (x y : Q) : ~ y == 0 -> div x y = Ok (x / y).
Proof.
  intros H. unfold div. destruct (Qeq_bool y 0) eqn:E; [|reflexivity].
  apply Qeq_bool_iff in E. contradiction.
Qed.




Lemma Math_round_mono (x y : Q) : x <= y -> Math_round x <= Math_round y.
Proof.
  intros H. unfold Math_round. rewrite <- Zle_Qle.
  apply Qfloor_resp_le. lra.
Qed.

Lemma Math_round_Z (z : Z) : Math_round (inject_Z z) = inject_Z z.
Proof.
  unfold Math_round. f_equal.
  pose proof (Qfloor_le (inject_Z z + (1 # 2))) as Hl.
  pose proof (Qlt_floor (inject_Z z + (1 # 2))) as Hu.
  set (f := Qfloor (inject_Z z + (1 # 2))) in *.
  assert (inject_Z f < inject_Z (z + 1)) as H1
    by (rewrite inject_Z_plus; change (inject_Z 1) with 1; lra).
  assert (inject_Z z < inject_Z (f + 1)) as H2 by lra.
  rewrite <- Zlt_Qlt in H1, H2. lia.
Qed.

#[export] Instance Math_round_Proper : Proper (Qeq ==> Qeq) Math_round.
Proof. intros x y H. unfold Math_round. now rewrite H. Qed.

Lemma Math_round_count (x : Q) (z : Z) : x == inject_Z z -> Math_round x == x.
Proof. intros H. rewrite H at 1. rewrite Math_round_Z. now symmetry. Qed.

Lemma Math_max_min_clamp (x : Q) :
  Math_max 0 (Math_min 100 x) == clamp x 0 100.
Proof.
  unfold Math_max, Math_min, clamp.
  case_ltb x 0; [|case_ltb 100 x].
  - rewrite Q.min_r by lra. apply Q.max_l. lra.
  - rewrite Q.min_l by lra. apply Q.max_r. lra.
  - rewrite Q.min_r by lra. apply Q.max_r. lra.
Qed.

#[export] Instance ltb_Proper : Proper (Qeq ==> Qeq ==> eq) ltb.
Proof. intros x x' Hx y y' Hy. unfold ltb. now rewrite Hx, Hy. Qed.

#[export] Instance clamp_Proper : Proper (Qeq ==> Qeq ==> Qeq ==> Qeq) clamp.
Proof.
  intros x x' Hx lo lo' Hlo hi hi' Hhi. unfold clamp.
  rewrite (ltb_Proper _ _ Hx _ _ Hlo), (ltb_Proper _ _ Hhi _ _ Hx).
  destruct (x' <? lo'); [exact Hlo|]. destruct (hi' <? x'); assumption.
Qed.

Lemma clamp_bounds (x lo hi : Q) : lo <= hi -> lo <= clamp x lo hi <= hi.
Proof.
  intros H. unfold clamp. case_ltb x lo; [|case_ltb hi x]; lra.
Qed.

Lemma clamp_inside (x lo hi : Q) : lo <= x <= hi -> clamp x lo hi = x.
Proof.
  intros [H1 H2]. unfold clamp.
  case_ltb x lo; [lra|]. case_ltb hi x; [lra|]. reflexivity.
Qed.

(** ** [computeVitality] is total *)

Lemma div_const (x y : Q) : Qeq_bool y 0 = false -> div x y = Ok (x / y).
Proof. intros H. unfold div. now rewrite H. Qed.

Lemma staleRatio_guarded (m : RawMetrics) :
  (if totalIssues m >? 0
   then div (staleIssues m) (totalIssues m)
   else Ok 0) = Ok (staleRatioOf m).
Proof.
  unfold staleRatioOf. case_gtb (totalIssues m) 0; [|reflexivity].
  apply div_nonzero. lra.
Qed.

Lemma computeVitality_reportOf (m : RawMetrics) :
  computeVitality m = Ok (reportOf m).
Proof.
  unfold computeVitality.
  rewrite staleRatio_guarded.
  rewrite !div_const by reflexivity.
  reflexivity.
Qed.

(** Reads the fields of [reportOf m] without unfolding the arithmetic. *)
Ltac report_fields :=
  cbn [reportOf score normalizedScore state breakdown stateConfig trend
       healthPercentage commitContribution prContribution stalePenalty].

(** ** State classification *)

Lemma resolveState_dormant (s : Q) : resolveState s = dormant <-> s < 0.
Proof.
  unfold resolveState.
  case_ltb s 0; [tauto|].
  case_ltb s 25; [|case_ltb s 60; [|case_ltb s 90]];
    (split; [discriminate | lra]).
Qed.

Lemma resolveState_recovering (s : Q) :
  resolveState s = recovering <-> 0 <= s < 25.
Proof.
  unfold resolveState.
  case_ltb s 0; [split; [discriminate | lra]|].
  case_ltb s 25; [tauto|].
  case_ltb s 60; [|case_ltb s 90]; (split; [discriminate | lra]).
Qed.





Lemma stateRank_resolveState (s : Q) :
  (s < 0 /\ stateRank (resolveState s) = 0%nat) \/
  (0 <= s < 25 /\ stateRank (resolveState s) = 1%nat) \/
  (25 <= s < 60 /\ stateRank (resolveState s) = 2%nat) \/
  (60 <= s < 90 /\ stateRank (resolveState s) = 3%nat) \/
  (90 <= s /\ stateRank (resolveState s) = 4%nat).
Proof.
  unfold resolveState.
  case_ltb s 0; [left; now split|].
  case_ltb s 25; [right; left; now split|].
  case_ltb s 60; [right; right; left; now split|].
  case_ltb s 90; [right; right; right; left; now split|].
  right; right; right; right; now split.
Qed.

(** C10.  State classification is monotone in the score: when [s1 <= s2],
    the state of [s1] is at most the state of [s2] in the order
    dormant < recovering < stable < thriving < supernova. *)
Theorem resolveState_monotone (s1 s2 : Q) :
  s1 <= s2 -> state_le (resolveState s1) (resolveState s2).
Proof.
  intros H. unfold state_le.
  destruct (stateRank_resolveState s1) as [[? ->]|[[? ->]|[[? ->]|[[? ->]|[? ->]]]]];
    destruct (stateRank_resolveState s2) as [[? ->]|[[? ->]|[[? ->]|[[? ->]|[? ->]]]]];
    first [ lia | lra ].
Qed.

Lemma resolveState_monotone_witness :
  24.9 <= 25 /\ state_le (resolveState 24.9) (resolveState 25) /\
  resolveState 24.9 = recovering /\ resolveState 25 = stable.
Proof.
  assert (24.9 <= 25) as H by (unfold Qle; simpl; lia).
  split; [exact H|]. split; [exact (resolveState_monotone 24.9 25 H)|].
  split; reflexivity.
Defined.

(** ** The state configuration map *)

(** C9.  The particle counts of the five states, in the vitality order
    dormant, recovering, stable, thriving, supernova, are 0, 4, 8, 16 and
    32, and a state later in the order has strictly more particles. *)
Theorem particleCount_increasing :
  map (fun s => particleCount (STATE_CONFIGS s)) allStates = [0; 4; 8; 16; 32] /\
  (forall s1 s2 : VitalityState,
      state_lt s1 s2 <->
      particleCount (STATE_CONFIGS s1) < particleCount (STATE_CONFIGS s2)).
Proof.
  split; [reflexivity|].
  intros s1 s2. unfold state_lt.
  destruct s1, s2; simpl; unfold Qlt; simpl; split; lia.
Qed.

(** ** Clamped fields *)

Lemma clamp100_bounds (x : Q) : 0 <= Math_max 0 (Math_min 100 x) <= 100.
Proof. rewrite Math_max_min_clamp. apply clamp_bounds. lra. Qed.

Lemma rawNormalized_bounds (m : RawMetrics) : 0 <= rawNormalized m <= 100.
Proof. apply clamp100_bounds. Qed.

Lemma rawHealth_bounds (m : RawMetrics) : 0 <= rawHealth m <= 100.
Proof. apply clamp100_bounds. Qed.

Lemma Math_round_bounds (x : Q) (lo hi : Z) :
  inject_Z lo <= x <= inject_Z hi ->
  inject_Z lo <= Math_round x <= inject_Z hi.
Proof.
  intros [H1 H2]. split.
  - rewrite <- (Math_round_Z lo). now apply Math_round_mono.
  - rewrite <- (Math_round_Z hi). now apply Math_round_mono.
Qed.

Lemma round1_bounds (x : Q) : 0 <= x <= 100 -> 0 <= round1 x <= 100.
Proof.
  intros H. unfold round1.
  pose proof (Math_round_bounds (x * 10) 0 1000) as B.
  change (inject_Z 0) with 0 in B. change (inject_Z 1000) with 1000 in B.
  assert (0 <= x * 10 <= 1000) as Hx by lra.
  specialize (B Hx). unfold Qdiv. change (/ 10) with (1 # 10). lra.
Qed.

(** C2.  Whatever the metrics, and so for non-negative integer counts
    however large, the [normalizedScore] and the [healthPercentage] of the
    report lie between 0 and 100 inclusive, also when the weighted sum is
    negative or far above the expected maximum. *)
Theorem report_fields_in_range (m : RawMetrics) :
  exists r, computeVitality m = Ok r /\
            0 <= normalizedScore r <= 100 /\
            0 <= healthPercentage r <= 100.
Proof.
  exists (reportOf m). split; [apply computeVitality_reportOf|].
  split; report_fields.
  - apply round1_bounds, rawNormalized_bounds.
  - apply (Math_round_bounds _ 0 100), rawHealth_bounds.
Qed.

(** ** Concrete scenarios *)

(** C7.  On the all-zero input, whatever the informational fields, the
    report has score 0, state recovering, health percentage 0 and a flat
    trend. *)
Theorem all_zero_report (stars forks contribs : Q) (date : string) :
  exists r,
    computeVitality {|
        commits := 0; prsMerged := 0; staleIssues := 0; totalIssues := 0;
        totalStars := stars; totalForks := forks; contributors := contribs;
        lastCommitDate := date |} = Ok r /\
    score r == 0 /\ state r = recovering /\
    healthPercentage r == 0 /\ trend r = flat.
Proof.
  eexists. split; [apply computeVitality_reportOf|].
  repeat split.
Qed.

(** ** Rounding to one decimal place *)

#[export] Instance round1_Proper : Proper (Qeq ==> Qeq) round1.
Proof. intros x y H. unfold round1. now rewrite H. Qed.

(** [Math_round] of a fraction, by integer division. *)
Lemma Math_round_frac (n : Z) (d : positive) :
  Math_round (n # d) == inject_Z ((2 * n + Zpos d) / (2 * Zpos d)).
Proof.
  unfold Math_round.
  assert ((n # d) + (1 # 2) == (2 * n + Zpos d) # (2 * d)) as E
    by (unfold Qeq, Qplus; cbn [Qnum Qden]; rewrite !Pos2Z.inj_mul; ring).
  rewrite (Qfloor_comp _ _ E). reflexivity.
Qed.

(** A number with at most one decimal is left as it is. *)
Lemma round1_tenths (x : Q) (k : Z) : x * 10 == inject_Z k -> round1 x == x.
Proof.
  intros H. unfold round1. rewrite (Math_round_count _ _ H). field.
Qed.



(** ** Integer counts *)

Lemma rawScore_tenths (m : RawMetrics) :
  integerCounts m -> exists k : Z, rawScore m == k # 10.
Proof.
  intros ([c [_ Hc]] & [p [_ Hp]] & [s [_ Hs]] & _).
  exists (5 * c + 3 * p - 2 * s)%Z. unfold rawScore.
  rewrite Hc, Hp, Hs.
  unfold Qeq, Qminus, Qplus, Qopp, Qmult, inject_Z. cbn [Qnum Qden]. lia.
Qed.

Lemma rawNormalized_twelfths (m : RawMetrics) :
  integerCounts m -> exists k : Z, rawNormalized m == k # 12.
Proof.
  intros H. destruct (rawScore_tenths m H) as [k Hk].
  unfold rawNormalized.
  pose proof (Math_max_min_clamp (rawScore m / MAX_EXPECTED_SCORE * 100)) as C.
  revert C. unfold clamp.
  case_ltb (rawScore m / MAX_EXPECTED_SCORE * 100) 0;
    [|case_ltb 100 (rawScore m / MAX_EXPECTED_SCORE * 100)]; intros C.
  - exists 0%Z. rewrite C. reflexivity.
  - exists 1200%Z. rewrite C. reflexivity.
  - exists k. rewrite C, Hk. unfold MAX_EXPECTED_SCORE.
    rewrite (Qmake_Qdiv k 10), (Qmake_Qdiv k 12).
    change (inject_Z (Zpos 10)) with 10. change (inject_Z (Zpos 12)) with 12.
    field.
Qed.

Lemma Zdiv_round_twice (k : Z) :
  ((2 * ((2 * (10 * k) + 12) / (2 * 12)) + 10) / (2 * 10)
   = (2 * k + 12) / (2 * 12))%Z.
Proof.
  pose proof (Z.div_mod (2 * (10 * k) + 12) (2 * 12) ltac:(lia)) as Ha.
  pose proof (Z.mod_pos_bound (2 * (10 * k) + 12) (2 * 12) ltac:(lia)) as Ra.
  pose proof (Z.div_mod (2 * k + 12) (2 * 12) ltac:(lia)) as Hb.
  pose proof (Z.mod_pos_bound (2 * k + 12) (2 * 12) ltac:(lia)) as Rb.
  set (a := ((2 * (10 * k) + 12) / (2 * 12))%Z) in *.
  set (b := ((2 * k + 12) / (2 * 12))%Z) in *.
  symmetry. apply Z.div_unique with (r := (2 * a + 10 - 20 * b)%Z); lia.
Qed.

(** Rounding a number of twelfths to one decimal and then to an integer
    gives the same integer as rounding it at once. *)
Lemma Math_round_round1_twelfths (k : Z) :
  Math_round (round1 (k # 12)) == Math_round (k # 12).
Proof.
  unfold round1.
  assert ((k # 12) * 10 == (10 * k) # 12) as E1
    by (unfold Qeq, Qmult; cbn [Qnum Qden]; lia).
  rewrite E1, Math_round_frac.
  set (a := ((2 * (10 * k) + 12) / (2 * 12))%Z).
  assert (inject_Z a / 10 == a # 10) as E2
    by (rewrite (Qmake_Qdiv a 10); reflexivity).
  rewrite E2, !Math_round_frac. subst a.
  apply inject_Z_injective, Zdiv_round_twice.
Qed.

Lemma round1_count_times (x c : Q) (n k : Z) :
  x == inject_Z n -> c * 10 == inject_Z k -> round1 (x * c) == x * c.
Proof.
  intros Hx Hc. apply (round1_tenths _ (n * k)).
  rewrite inject_Z_mult, <- Hx, <- Hc. ring.
Qed.

(** In this exact arithmetic, and on integer counts, the report rounds
    nothing away: the score and the three terms of the breakdown are the
    unrounded quantities. *)
Lemma report_exact_on_counts (m : RawMetrics) :
  integerCounts m ->
  score (reportOf m) == rawScore m /\
  commitContribution (breakdown (reportOf m)) == commits m * 0.5 /\
  prContribution (breakdown (reportOf m)) == prsMerged m * 0.3 /\
  stalePenalty (breakdown (reportOf m)) == staleIssues m * 0.2.
Proof.
  intros H. pose proof (rawScore_tenths m H) as [k Hk].
  destruct H as ([c [_ Hc]] & [p [_ Hp]] & [s [_ Hs]] & _).
  report_fields. repeat split.
  - apply (round1_tenths _ k). rewrite Hk, (Qmake_Qdiv k 10).
    change (inject_Z (Zpos 10)) with 10. field.
  - now apply (round1_count_times _ _ c 5).
  - now apply (round1_count_times _ _ p 3).
  - now apply (round1_count_times _ _ s 2).
Qed.

(** ** Trend *)


(** ** Health percentage *)

Lemma staleRatioOf_no_issues (m : RawMetrics) :
  totalIssues m == 0 -> staleRatioOf m = 0.
Proof.
  intros H. unfold staleRatioOf.
  case_gtb (totalIssues m) 0; [lra | reflexivity].
Qed.



(** Without stale ratio nothing is discounted. *)
Lemma healthPercentage_no_discount (m : RawMetrics) :
  staleRatioOf m == 0 ->
  healthPercentage (reportOf m) == Math_round (rawNormalized m).
Proof.
  intros H. report_fields. unfold rawHealth.
  rewrite Math_max_min_clamp.
  pose proof (rawNormalized_bounds m) as B.
  assert (rawNormalized m * (1 - staleRatioOf m * 0.5) == rawNormalized m)
    as E by (rewrite H; ring).
  rewrite E, clamp_inside by lra. reflexivity.
Qed.

(** In this exact arithmetic, and on integer counts, the health percentage
    without issues is also the rounding of the reported [normalizedScore]
    field: the normalized score is a number of twelfths, which one decimal
    never moves across a half.  The statement rests on the tenths being
    exact. *)
Lemma reported_health_on_counts (m : RawMetrics) :
  integerCounts m -> totalIssues m == 0 ->
  healthPercentage (reportOf m)
  == Math_round (normalizedScore (reportOf m)).
Proof.
  intros Hc H.
  rewrite healthPercentage_no_discount
    by now rewrite staleRatioOf_no_issues.
  report_fields.
  destruct (rawNormalized_twelfths m Hc) as [k ->].
  symmetry. apply Math_round_round1_twelfths.
Qed.





(** ** Formatting *)



Example formatCount_999 : formatCount 999 = Ok "999"%string.
Proof. reflexivity. Qed.

Example formatCount_1000 : formatCount 1000 = Ok "1.0K"%string.
Proof. reflexivity. Qed.

Example formatCount_999999 : formatCount 999999 = Ok "1000.0K"%string.
Proof. vm_compute. reflexivity. Qed.

Example formatCount_1234567 : formatCount 1234567 = Ok "1.2M"%string.
Proof. vm_compute. reflexivity. Qed.

(** ** The scenarios of the design document *)

Ltac run_scenario :=
  eexists; split; [apply computeVitality_reportOf|];
  unfold reportIs; repeat split.

Example scenario_commits_only :
  exists r, computeVitality (metricsOf 100 0 0 10) = Ok r /\
            reportIs r 50 41.7 stable 50 0 0 rising 42.
Proof. run_scenario. Qed.

Example scenario_prs_only :
  exists r, computeVitality (metricsOf 0 50 0 10) = Ok r /\
            reportIs r 15 12.5 recovering 0 15 0 falling 13.
Proof. run_scenario. Qed.

Example scenario_stale_only :
  exists r, computeVitality (metricsOf 0 0 50 100) = Ok r /\
            reportIs r (-10) 0 dormant 0 0 10 flat 0.
Proof. run_scenario. Qed.

Example scenario_saturated :
  exists r, computeVitality (metricsOf 200 100 0 20) = Ok r /\
            reportIs r 130 100 supernova 100 30 0 rising 100.
Proof. run_scenario. Qed.

Example scenario_huge_commits :
  exists r, computeVitality (metricsOf (10 ^ 30) 0 0 0) = Ok r /\
            normalizedScore r == 100 /\ healthPercentage r == 100.
Proof. eexists. split; [apply computeVitality_reportOf|]. split; reflexivity. Qed.

Example scenario_huge_stale :
  exists r, computeVitality (metricsOf 0 0 (10 ^ 30) (10 ^ 30)) = Ok r /\
            normalizedScore r == 0 /\ healthPercentage r == 0.
Proof. eexists. split; [apply computeVitality_reportOf|]. split; reflexivity. Qed.

(** * Further properties of the engine *)

(** ** The report as a function of the four scoring fields *)

#[export] Instance resolveState_Proper : Proper (Qeq ==> eq) resolveState.
Proof.
  intros x y H. unfold resolveState. now rewrite !(ltb_Proper _ _ H _ _ (Qeq_refl _)).
Qed.

Lemma round1_mono (x y : Q) : x <= y -> round1 x <= round1 y.
Proof.
  intros H. unfold round1.
  assert (Math_round (x * 10) <= Math_round (y * 10)) as M
    by (apply Math_round_mono; lra).
  unfold Qdiv. change (/ 10) with (1 # 10). lra.
Qed.

Lemma clamp_mono (x y lo hi : Q) :
  lo <= hi -> x <= y -> clamp x lo hi <= clamp y lo hi.
Proof.
  intros Hb H. unfold clamp.
  case_ltb x lo; case_ltb hi x; case_ltb y lo; case_ltb hi y; lra.
Qed.

Lemma clamp100_mono (x y : Q) :
  x <= y -> Math_max 0 (Math_min 100 x) <= Math_max 0 (Math_min 100 y).
Proof.
  intros H. rewrite !Math_max_min_clamp. apply clamp_mono; lra.
Qed.

Lemma rawNormalized_mono (m1 m2 : RawMetrics) :
  rawScore m1 <= rawScore m2 -> rawNormalized m1 <= rawNormalized m2.
Proof.
  intros H. unfold rawNormalized, MAX_EXPECTED_SCORE.
  apply clamp100_mono. unfold Qdiv. change (/ 120) with (1 # 120). lra.
Qed.

Lemma staleRatioOf_eq (m1 m2 : RawMetrics) :
  staleIssues m1 == staleIssues m2 -> totalIssues m1 == totalIssues m2 ->
  staleRatioOf m1 == staleRatioOf m2.
Proof.
  intros Hs Ht. unfold staleRatioOf, gtb.
  rewrite (ltb_Proper _ _ (Qeq_refl 0) _ _ Ht).
  destruct (0 <? totalIssues m2); [|reflexivity].
  now rewrite Hs, Ht.
Qed.

Lemma trendOf_eq (m1 m2 : RawMetrics) :
  commits m1 == commits m2 -> prsMerged m1 == prsMerged m2 ->
  trendOf m1 = trendOf m2.
Proof.
  intros Hc Hp. unfold trendOf, gtb.
  assert (prsMerged m1 * 0.3 + 10 == prsMerged m2 * 0.3 + 10) as E1
    by now rewrite Hp.
  assert (commits m1 * 0.5 == commits m2 * 0.5) as E2 by now rewrite Hc.
  assert (commits m1 * 0.5 + 10 == commits m2 * 0.5 + 10) as E3
    by now rewrite Hc.
  assert (prsMerged m1 * 0.3 == prsMerged m2 * 0.3) as E4 by now rewrite Hp.
  now rewrite (ltb_Proper _ _ E1 _ _ E2), (ltb_Proper _ _ E3 _ _ E4).
Qed.

Lemma Qle_antisym_le (x y : Q) : x <= y -> y <= x -> x == y.
Proof. intros; lra. Qed.

Lemma rawHealth_eq (m1 m2 : RawMetrics) :
  rawNormalized m1 == rawNormalized m2 -> staleRatioOf m1 == staleRatioOf m2 ->
  rawHealth m1 == rawHealth m2.
Proof.
  intros Hn Hr. unfold rawHealth.
  assert (rawNormalized m1 * (1 - staleRatioOf m1 * 0.5)
          == rawNormalized m2 * (1 - staleRatioOf m2 * 0.5)) as E
    by now rewrite Hn, Hr.
  apply Qle_antisym_le; apply clamp100_mono; lra.
Qed.

(** X1.  The report depends on the metrics only through [commits],
    [prsMerged], [staleIssues] and [totalIssues]: two records that agree on
    these four numbers, whatever their stars, forks, contributors and last
    commit date, get the same report. *)
Theorem report_ignores_informational (m1 m2 : RawMetrics) :
  commits m1 == commits m2 -> prsMerged m1 == prsMerged m2 ->
  staleIssues m1 == staleIssues m2 -> totalIssues m1 == totalIssues m2 ->
  exists r1 r2, computeVitality m1 = Ok r1 /\ computeVitality m2 = Ok r2 /\
                reportEq r1 r2.
Proof.
  intros Hc Hp Hs Ht.
  exists (reportOf m1), (reportOf m2).
  split; [apply computeVitality_reportOf|].
  split; [apply computeVitality_reportOf|].
  assert (rawScore m1 == rawScore m2) as Esc
    by (unfold rawScore; now rewrite Hc, Hp, Hs).
  assert (rawNormalized m1 == rawNormalized m2) as En
    by (apply Qle_antisym_le; apply rawNormalized_mono; lra).
  pose proof (staleRatioOf_eq m1 m2 Hs Ht) as Er.
  pose proof (rawHealth_eq m1 m2 En Er) as Eh.
  unfold reportEq. report_fields.
  rewrite (resolveState_Proper _ _ Esc), (trendOf_eq m1 m2 Hc Hp).
  rewrite Esc, En, Eh, Hc, Hp, Hs.
  repeat split; reflexivity.
Qed.

Lemma report_ignores_informational_witness :
  exists r1 r2,
    computeVitality (metricsOf 40 12 3 9) = Ok r1 /\
    computeVitality {| commits := 80 # 2; prsMerged := 12; staleIssues := 3;
                       totalIssues := 9; totalStars := 4821;
                       totalForks := 77; contributors := 12;
                       lastCommitDate := "1999-12-31T23:59:59.000Z" |} = Ok r2 /\
    reportEq r1 r2.
Proof.
  apply report_ignores_informational; reflexivity.
Defined.

(** ** Monotonicity *)

Lemma rawHealth_mono (m1 m2 : RawMetrics) :
  rawNormalized m1 <= rawNormalized m2 ->
  staleRatioOf m2 <= staleRatioOf m1 ->
  rawHealth m1 <= rawHealth m2.
Proof.
  intros Hn Hr. unfold rawHealth. rewrite !Math_max_min_clamp.
  pose proof (rawNormalized_bounds m1) as B1.
  pose proof (rawNormalized_bounds m2) as B2.
  set (n1 := rawNormalized m1) in *. set (n2 := rawNormalized m2) in *.
  set (f1 := 1 - staleRatioOf m1 * 0.5).
  set (f2 := 1 - staleRatioOf m2 * 0.5).
  assert (f1 <= f2) as Hf by (unfold f1, f2; lra).
  destruct (Qlt_le_dec f2 0) as [Neg|Pos].
  - assert (n1 * f1 <= 0) as P1 by nra.
    assert (n2 * f2 <= 0) as P2 by nra.
    pose proof (clamp_bounds (n2 * f2) 0 100 ltac:(lra)) as C2.
    assert (clamp (n1 * f1) 0 100 == 0) as ->; [|lra].
    unfold clamp. case_ltb (n1 * f1) 0; [reflexivity|].
    case_ltb 100 (n1 * f1); lra.
  - apply clamp_mono; [lra|].
    apply Qle_trans with (n1 * f2); [|nra].
    assert (0 <= n1 * (f2 - f1)) by (apply Qmult_le_0_compat; lra). lra.
Qed.

Lemma staleRatioOf_mono (m1 m2 : RawMetrics) :
  staleIssues m1 <= staleIssues m2 -> totalIssues m1 == totalIssues m2 ->
  staleRatioOf m1 <= staleRatioOf m2.
Proof.
  intros Hs Ht. unfold staleRatioOf, gtb.
  rewrite (ltb_Proper _ _ (Qeq_refl 0) _ _ Ht).
  case_ltb 0 (totalIssues m2); [|lra].
  rewrite Ht. unfold Qdiv.
  assert (0 < / totalIssues m2) as Hi by now apply Qinv_lt_0_compat.
  nra.
Qed.

Lemma particleCount_mono (s1 s2 : VitalityState) :
  state_le s1 s2 ->
  particleCount (STATE_CONFIGS s1) <= particleCount (STATE_CONFIGS s2).
Proof.
  unfold state_le. destruct s1, s2; simpl; unfold Qle; simpl; lia.
Qed.

Lemma resolveState_mono (s1 s2 : Q) :
  s1 <= s2 -> state_le (resolveState s1) (resolveState s2).
Proof.
  intros H. unfold state_le.
  destruct (stateRank_resolveState s1) as [[? ->]|[[? ->]|[[? ->]|[[? ->]|[? ->]]]]];
    destruct (stateRank_resolveState s2) as [[? ->]|[[? ->]|[[? ->]|[[? ->]|[? ->]]]]];
    first [ lia | lra ].
Qed.

(** X2.  More activity never hurts: when [commits] and [prsMerged] do not
    decrease and the two issue counts stay the same, the reported score,
    normalized score and health percentage do not decrease, the state does
    not go down in the vitality order and the mascot does not lose
    particles. *)
Theorem more_activity_never_lowers (m1 m2 : RawMetrics) :
  commits m1 <= commits m2 -> prsMerged m1 <= prsMerged m2 ->
  staleIssues m1 == staleIssues m2 -> totalIssues m1 == totalIssues m2 ->
  exists r1 r2, computeVitality m1 = Ok r1 /\ computeVitality m2 = Ok r2 /\
    score r1 <= score r2 /\
    normalizedScore r1 <= normalizedScore r2 /\
    state_le (state r1) (state r2) /\
    particleCount (stateConfig r1) <= particleCount (stateConfig r2) /\
    healthPercentage r1 <= healthPercentage r2.
Proof.
  intros Hc Hp Hs Ht.
  exists (reportOf m1), (reportOf m2).
  split; [apply computeVitality_reportOf|].
  split; [apply computeVitality_reportOf|].
  assert (rawScore m1 <= rawScore m2) as Hsc by (unfold rawScore; lra).
  pose proof (rawNormalized_mono m1 m2 Hsc) as Hn.
  pose proof (resolveState_mono _ _ Hsc) as Hst.
  pose proof (staleRatioOf_eq m1 m2 Hs Ht) as Hr.
  report_fields. repeat split.
  - now apply round1_mono.
  - now apply round1_mono.
  - exact Hst.
  - now apply particleCount_mono.
  - apply Math_round_mono, rawHealth_mono; [exact Hn | lra].
Qed.

Lemma more_activity_never_lowers_witness :
  exists r1 r2,
    computeVitality (metricsOf 48 3 10 20) = Ok r1 /\
    computeVitality (metricsOf 120 40 10 20) = Ok r2 /\
    state r1 = recovering /\ state r2 = thriving /\
    healthPercentage r1 <= healthPercentage r2.
Proof.
  destruct (more_activity_never_lowers (metricsOf 48 3 10 20)
              (metricsOf 120 40 10 20)) as (r1 & r2 & H1 & H2 & _ & _ & _ & _ & Hh);
    try (unfold Qle; simpl; lia); try reflexivity.
  exists r1, r2. split; [exact H1|]. split; [exact H2|].
  rewrite computeVitality_reportOf in H1, H2.
  injection H1 as <-. injection H2 as <-.
  split; [reflexivity|]. split; [reflexivity|]. exact Hh.
Defined.

(** X3.  More stale issues never help: when [staleIssues] does not decrease
    and the other three scoring fields stay the same, the reported score,
    normalized score and health percentage do not increase and the state
    does not go up.  No bound on [staleIssues] is needed. *)
Theorem more_stale_never_raises (m1 m2 : RawMetrics) :
  commits m1 == commits m2 -> prsMerged m1 == prsMerged m2 ->
  staleIssues m1 <= staleIssues m2 -> totalIssues m1 == totalIssues m2 ->
  exists r1 r2, computeVitality m1 = Ok r1 /\ computeVitality m2 = Ok r2 /\
    score r2 <= score r1 /\
    normalizedScore r2 <= normalizedScore r1 /\
    state_le (state r2) (state r1) /\
    healthPercentage r2 <= healthPercentage r1.
Proof.
  intros Hc Hp Hs Ht.
  exists (reportOf m1), (reportOf m2).
  split; [apply computeVitality_reportOf|].
  split; [apply computeVitality_reportOf|].
  assert (rawScore m2 <= rawScore m1) as Hsc by (unfold rawScore; lra).
  pose proof (rawNormalized_mono m2 m1 Hsc) as Hn.
  pose proof (staleRatioOf_mono m1 m2 Hs Ht) as Hr.
  report_fields. repeat split.
  - now apply round1_mono.
  - now apply round1_mono.
  - now apply resolveState_mono.
  - now apply Math_round_mono, rawHealth_mono.
Qed.

Lemma more_stale_never_raises_witness :
  exists r1 r2,
    computeVitality (metricsOf 60 10 0 30) = Ok r1 /\
    computeVitality (metricsOf 60 10 45 30) = Ok r2 /\
    healthPercentage r1 == 28 /\ healthPercentage r2 == 5 /\
    healthPercentage r2 <= healthPercentage r1.
Proof.
  destruct (more_stale_never_raises (metricsOf 60 10 0 30)
              (metricsOf 60 10 45 30)) as (r1 & r2 & H1 & H2 & _ & _ & _ & Hh);
    try (unfold Qle; simpl; lia); try reflexivity.
  exists r1, r2. split; [exact H1|]. split; [exact H2|].
  rewrite computeVitality_reportOf in H1, H2.
  injection H1 as <-. injection H2 as <-.
  split; [reflexivity|]. split; [reflexivity|]. exact Hh.
Defined.

(** ** Saturation *)

Lemma rawNormalized_low (m : RawMetrics) :
  rawScore m <= 0 -> rawNormalized m == 0.
Proof.
  intros H. unfold rawNormalized, MAX_EXPECTED_SCORE.
  rewrite Math_max_min_clamp. unfold clamp.
  assert (rawScore m / 120 * 100 <= 0) as L
    by (unfold Qdiv; change (/ 120) with (1 # 120); lra).
  case_ltb (rawScore m / 120 * 100) 0; [reflexivity|].
  case_ltb 100 (rawScore m / 120 * 100); lra.
Qed.


(** X4.  A weighted sum that is zero or negative, and so every dormant
    repository, is reported with normalized score 0 and health percentage
    0, whatever the issue counts. *)
Theorem nonpositive_score_zero_health (m : RawMetrics) :
  rawScore m <= 0 ->
  exists r, computeVitality m = Ok r /\
            normalizedScore r == 0 /\ healthPercentage r == 0 /\
            (state r = dormant \/ state r = recovering).
Proof.
  intros H. exists (reportOf m).
  split; [apply computeVitality_reportOf|].
  pose proof (rawNormalized_low m H) as N.
  report_fields. split; [|split].
  - rewrite N. reflexivity.
  - unfold rawHealth. rewrite Math_max_min_clamp.
    assert (rawNormalized m * (1 - staleRatioOf m * 0.5) == 0) as E
      by (rewrite N; ring).
    rewrite E. reflexivity.
  - destruct (Qlt_le_dec (rawScore m) 0) as [L|L].
    + left. now apply resolveState_dormant.
    + right. apply resolveState_recovering. lra.
Qed.

Lemma nonpositive_score_zero_health_witness :
  rawScore (metricsOf 2 0 30 3) <= 0 /\
  exists r, computeVitality (metricsOf 2 0 30 3) = Ok r /\
            state r = dormant /\ healthPercentage r == 0.
Proof.
  assert (rawScore (metricsOf 2 0 30 3) <= 0) as H
    by (unfold Qle; simpl; lia).
  split; [exact H|].
  destruct (nonpositive_score_zero_health _ H) as (r & Hr & _ & Hh & _).
  exists r. split; [exact Hr|].
  rewrite computeVitality_reportOf in Hr. injection Hr as <-.
  split; [reflexivity | exact Hh].
Defined.



(** ** Out-of-contract issue counts *)




(** * The mock data factory *)



(** An integer between two bounds known as rationals. *)
Lemma Qfloor_between (x : Q) (a b : Z) :
  inject_Z a <= x -> x < inject_Z b + 1 -> (a <= Qfloor x <= b)%Z.
Proof.
  intros Ha Hb.
  pose proof (Qfloor_le x) as L. pose proof (Qlt_floor x) as U.
  rewrite inject_Z_plus in U. change (inject_Z 1) with 1 in U.
  assert (inject_Z a < inject_Z (Qfloor x + 1)) as H1
    by (rewrite inject_Z_plus; change (inject_Z 1) with 1; lra).
  assert (inject_Z (Qfloor x) < inject_Z (b + 1)) as H2
    by (rewrite inject_Z_plus; change (inject_Z 1) with 1; lra).
  rewrite <- Zlt_Qlt in H1, H2. lia.
Qed.




Section MockFacts.

Variable sin : Q -> Q.
Variable now : Q.
Variable toISO : Q -> string.




End MockFacts.



(** * Relative time *)

(** The floor of a quotient against an integer bound, without the
    quotient. *)
Lemma floor_div_ltb (d k : Q) (n : Z) :
  0 < k -> (Math_floor (d / k) <? inject_Z n) = (d <? inject_Z n * k).
Proof.
  intros Hk.
  pose proof (Qfloor_le (d / k)) as L. pose proof (Qlt_floor (d / k)) as U.
  assert (d == d / k * k) as E by (field; lra).
  case_ltb d (inject_Z n * k).
  - apply ltb_lt. unfold Math_floor. rewrite <- Zlt_Qlt.
    assert (d / k < inject_Z n) as Q
      by (apply Qlt_shift_div_r; [exact Hk | lra]).
    assert (inject_Z (Qfloor (d / k)) < inject_Z n) as Z1 by lra.
    now rewrite <- Zlt_Qlt in Z1.
  - apply ltb_ge. unfold Math_floor. rewrite <- Zle_Qle.
    assert (inject_Z n <= d / k) as Q
      by (apply Qle_shift_div_l; [exact Hk | lra]).
    assert (inject_Z n < inject_Z (Qfloor (d / k) + 1)) as Z1 by lra.
    rewrite <- Zlt_Qlt in Z1. lia.
Qed.

Lemma nan_floor_div_some (d k : Q) :
  Qeq_bool k 0 = false ->
  nan_floor_div (Some d) k = Ok (Some (Math_floor (d / k))).
Proof. intros H. unfold nan_floor_div. now rewrite div_const. Qed.

Section RelativeTimeFacts.

Variable getTime : string -> option Q.
Variable toLocale : string -> string.

(** [relativeTime] on a date that parses, by the age alone. *)
Lemma relativeTime_valid (now t : Q) (isoDate : string) :
  getTime isoDate = Some t ->
  relativeTime getTime toLocale now isoDate
  = Ok (let diff := now - t in
        if diff <? 60000 then "just now"%string
        else if diff <? 3600000
             then (Z_digits (Qfloor (diff / 60000)) ++ "m ago")%string
        else if diff <? 86400000
             then (Z_digits (Qfloor (diff / 3600000)) ++ "h ago")%string
        else if diff <? 604800000
             then (Z_digits (Qfloor (diff / 86400000)) ++ "d ago")%string
        else toLocale isoDate).
Proof.
  intros H. unfold relativeTime. rewrite H. cbn [nan_sub option_map].
  rewrite !nan_floor_div_some by reflexivity.
  cbn [bind nan_ltb nan_digits]. cbv zeta.
  change 1 with (inject_Z 1) at 1. change 60 with (inject_Z 60) at 1.
  change 24 with (inject_Z 24) at 1. change 7 with (inject_Z 7) at 1.
  rewrite !floor_div_ltb by reflexivity.
  rewrite (ltb_Proper _ _ (Qeq_refl (now - t)) (inject_Z 1 * 60000) 60000)
    by reflexivity.
  rewrite (ltb_Proper _ _ (Qeq_refl (now - t)) (inject_Z 60 * 60000) 3600000)
    by reflexivity.
  rewrite (ltb_Proper _ _ (Qeq_refl (now - t)) (inject_Z 24 * 3600000) 86400000)
    by reflexivity.
  rewrite (ltb_Proper _ _ (Qeq_refl (now - t)) (inject_Z 7 * 86400000) 604800000)
    by reflexivity.
  unfold Math_floor. rewrite !Qfloor_Z.
  destruct (now - t <? 60000); [reflexivity|].
  destruct (now - t <? 3600000); [reflexivity|].
  destruct (now - t <? 86400000); [reflexivity|].
  destruct (now - t <? 604800000); reflexivity.
Qed.

Lemma unit_count (d k : Q) (a b : Z) :
  0 < k -> inject_Z a * k <= d -> d < inject_Z (b + 1) * k ->
  (a <= Qfloor (d / k) <= b)%Z.
Proof.
  intros Hk L U. apply Qfloor_between.
  - apply Qle_shift_div_l; [exact Hk | exact L].
  - rewrite inject_Z_plus in U. change (inject_Z 1) with 1 in U.
    apply Qlt_shift_div_r; [exact Hk | exact U].
Qed.

(** X10.  For a date that parses, [relativeTime] is decided by the age
    [now - date] in milliseconds: under one minute, and so for every date in
    the future, "just now"; from one minute up to one hour the whole
    minutes, always 1 to 59; from one hour up to one day the whole hours,
    always 1 to 23; from one day up to seven days the whole days, always 1
    to 6; from seven days on the locale date.  No unit is ever shown with a
    count of zero or with a full next unit. *)
Theorem relativeTime_ranges (now t : Q) (isoDate : string) :
  getTime isoDate = Some t ->
  (now - t < 60000 ->
   relativeTime getTime toLocale now isoDate = Ok "just now"%string) /\
  (60000 <= now - t < 3600000 ->
   exists n : Z, (1 <= n <= 59)%Z /\ n = Qfloor ((now - t) / 60000) /\
     relativeTime getTime toLocale now isoDate
     = Ok (Z_digits n ++ "m ago")%string) /\
  (3600000 <= now - t < 86400000 ->
   exists n : Z, (1 <= n <= 23)%Z /\ n = Qfloor ((now - t) / 3600000) /\
     relativeTime getTime toLocale now isoDate
     = Ok (Z_digits n ++ "h ago")%string) /\
  (86400000 <= now - t < 604800000 ->
   exists n : Z, (1 <= n <= 6)%Z /\ n = Qfloor ((now - t) / 86400000) /\
     relativeTime getTime toLocale now isoDate
     = Ok (Z_digits n ++ "d ago")%string) /\
  (604800000 <= now - t ->
   relativeTime getTime toLocale now isoDate = Ok (toLocale isoDate)).
Proof.
  intros H. rewrite (relativeTime_valid now t isoDate H). cbv zeta.
  set (diff := now - t).
  repeat split.
  - intros D. apply ltb_lt in D. now rewrite D.
  - intros [D1 D2]. exists (Qfloor (diff / 60000)).
    split; [apply unit_count; [reflexivity | exact D1 | exact D2]|].
    split; [reflexivity|].
    apply ltb_ge in D1. apply ltb_lt in D2. now rewrite D1, D2.
  - intros [D1 D2]. exists (Qfloor (diff / 3600000)).
    split; [apply unit_count; [reflexivity | exact D1 | exact D2]|].
    split; [reflexivity|].
    assert (60000 <= diff) as D0 by lra. assert (3600000 <= diff) as D1' by lra.
    apply ltb_ge in D0, D1'. apply ltb_lt in D2. now rewrite D0, D1', D2.
  - intros [D1 D2]. exists (Qfloor (diff / 86400000)).
    split; [apply unit_count; [reflexivity | exact D1 | exact D2]|].
    split; [reflexivity|].
    assert (60000 <= diff) as D0 by lra. assert (3600000 <= diff) as D3 by lra.
    assert (86400000 <= diff) as D4 by lra.
    apply ltb_ge in D0, D3, D4. apply ltb_lt in D2.
    now rewrite D0, D3, D4, D2.
  - intros D.
    assert (60000 <= diff) as D0 by lra. assert (3600000 <= diff) as D3 by lra.
    assert (86400000 <= diff) as D4 by lra.
    apply ltb_ge in D0, D3, D4, D. now rewrite D0, D3, D4, D.
Qed.

(** X11.  A date that does not parse has NaN for its age, every comparison
    fails and [relativeTime] answers the locale rendering of the date, at
    any clock reading: never "just now" and never a count of "NaN". *)
Theorem relativeTime_invalid_date (now : Q) (isoDate : string) :
  getTime isoDate = None ->
  relativeTime getTime toLocale now isoDate = Ok (toLocale isoDate).
Proof.
  intros H. unfold relativeTime. rewrite H. reflexivity.
Qed.

End RelativeTimeFacts.

Lemma relativeTime_ranges_witness :
  sampleGetTime "2024-05-01" = Some 10000000 /\
  relativeTime sampleGetTime sampleLocale 9000000 "2024-05-01"
  = Ok "just now"%string /\
  relativeTime sampleGetTime sampleLocale (10000000 + 3599999) "2024-05-01"
  = Ok "59m ago"%string /\
  relativeTime sampleGetTime sampleLocale (10000000 + 3600000) "2024-05-01"
  = Ok "1h ago"%string /\
  relativeTime sampleGetTime sampleLocale (10000000 + 604799999) "2024-05-01"
  = Ok "6d ago"%string.
Proof.
  assert (sampleGetTime "2024-05-01" = Some 10000000) as H by reflexivity.
  split; [exact H|].
  split.
  { apply (relativeTime_ranges sampleGetTime sampleLocale _ _ _ H).
    unfold Qlt; simpl; lia. }
  repeat split; vm_compute; reflexivity.
Defined.

Lemma relativeTime_invalid_date_witness :
  sampleGetTime "" = None /\
  relativeTime sampleGetTime sampleLocale 1700000000000 "" = Ok "on "%string.
Proof.
  assert (sampleGetTime "" = None) as H by reflexivity.
  split; [exact H|].
  exact (relativeTime_invalid_date sampleGetTime sampleLocale _ "" H).
Defined.

(** * The mascot's particles *)





Section ParticleFacts.

Variable PI : Q.
Variable cos : Q -> Q.
Variable sin : Q -> Q.





End ParticleFacts.

(** * Colours *)

Lemma allHex_app (s1 s2 : string) :
  allHex (s1 ++ s2) = allHex s1 && allHex s2.
Proof.
  induction s1 as [|c s1 IH]; cbn [append allHex]; [reflexivity|].
  now rewrite IH, andb_assoc.
Qed.

Lemma length_app_string (s1 s2 : string) :
  String.length (s1 ++ s2) = (String.length s1 + String.length s2)%nat.
Proof.
  induction s1 as [|c s1 IH]; cbn [append String.length]; [reflexivity|].
  now rewrite IH.
Qed.

Lemma isHexColor_app (n k : nat) (s alpha : string) :
  isHexColor n s = true -> String.length alpha = k -> allHex alpha = true ->
  isHexColor (n + k) (s ++ alpha) = true.
Proof.
  intros Hs Hk Ha. destruct s as [|c digits]; [discriminate|].
  cbn [append]. unfold isHexColor in *.
  destruct (Ascii.eqb_spec c "#") as [->|Hc].
  - apply andb_true_iff in Hs. destruct Hs as [Hl Hd].
    apply Nat.eqb_eq in Hl.
    rewrite length_app_string, allHex_app, Hl, Hk, Hd, Ha, Nat.eqb_refl.
    reflexivity.
  - destruct c as [[] [] [] [] [] [] [] []]; try discriminate.
    now contradiction Hc.
Qed.

(** X13.  In every state [glowColor] is a [#] followed by six hexadecimal
    digits, so a [glowColor] with a two-digit hexadecimal alpha appended,
    as the components write it, is a [#] followed by eight hexadecimal
    digits. *)
Theorem glowColor_with_alpha (s : VitalityState) (alpha : string) :
  String.length alpha = 2%nat -> allHex alpha = true ->
  isHexColor 6 (glowColor (STATE_CONFIGS s)) = true /\
  isHexColor 8 (glowColor (STATE_CONFIGS s) ++ alpha) = true.
Proof.
  intros Hl Ha.
  assert (isHexColor 6 (glowColor (STATE_CONFIGS s)) = true) as H6
    by (destruct s; reflexivity).
  split; [exact H6|].
  exact (isHexColor_app 6 2 _ alpha H6 Hl Ha).
Qed.

Lemma glowColor_with_alpha_witness :
  String.length "18" = 2%nat /\ allHex "18" = true /\
  (glowColor (STATE_CONFIGS thriving) ++ "18")%string = "#00ff9d18"%string /\
  isHexColor 8 (glowColor (STATE_CONFIGS thriving) ++ "18") = true.
Proof.
  split; [reflexivity|]. split; [reflexivity|]. split; [reflexivity|].
  exact (proj2 (glowColor_with_alpha thriving "18" eq_refl eq_refl)).
Defined.

(** * The GitHub client *)

Module GitHubClientFacts.

Import GitHubClient.




Lemma substring_length_le (n m : nat) (s : string) :
  (String.length (substring n m s) <= m)%nat.
Proof.
  revert n m. induction s as [|c s IH]; intros n m.
  - destruct n, m; cbn; lia.
  - destruct n as [|n].
    + destruct m as [|m]; cbn [substring String.length]; [lia|].
      specialize (IH 0%nat m). lia.
    + cbn [substring]. apply IH.
Qed.

Lemma firstLine_noLineFeed (s : string) : noLineFeed (firstLine s) = true.
Proof.
  induction s as [|c s IH]; cbn [firstLine]; [reflexivity|].
  destruct (Ascii.eqb c "010") eqn:E; [reflexivity|].
  cbn [noLineFeed]. now rewrite E, IH.
Qed.

Lemma substring_noLineFeed (n m : nat) (s : string) :
  noLineFeed s = true -> noLineFeed (substring n m s) = true.
Proof.
  revert n m. induction s as [|c s IH]; intros n m H.
  - destruct n, m; reflexivity.
  - cbn [noLineFeed] in H. apply andb_true_iff in H. destruct H as [Hc Hs].
    destruct n as [|n].
    + destruct m as [|m]; cbn [substring noLineFeed]; [reflexivity|].
      now rewrite Hc, IH.
    + cbn [substring]. now apply IH.
Qed.

(** [firstLine] is the longest prefix without a line feed. *)
Lemma firstLine_prefix (s : string) :
  prefix (firstLine s) s = true.
Proof.
  induction s as [|c s IH]; cbn [firstLine]; [reflexivity|].
  destruct (Ascii.eqb c "010"); [reflexivity|].
  cbn [prefix]. destruct (ascii_dec c c); [exact IH | contradiction].
Qed.

Section ClientFacts.

Variable now : Q.
Variable getTime : string -> option Q.
Variable toISO : Q -> string.
Variable sin : Q -> Q.
Variable randomHex : nat -> string.

Local Notation "'fetch'" :=
  (fetchDashboardData now getTime toISO sin randomHex).
Local Notation "'live'" := (liveDashboard now getTime toISO).
Local Notation "'mock'" := (buildMockDashboard now toISO sin randomHex).

(** The two outcomes of [fetchDashboardData]. *)
Lemma fetch_cases (token : option string) (rs : Responses)
    (target : GitHubRepo) :
  (fetch token rs target = mock target /\
   (noToken token = true \/ repoData rs = None \/ commitsData rs = None \/
    prsData rs = None \/ issuesData rs = None \/ contributorsData rs = None))
  \/
  (exists r c p i k,
      noToken token = false /\
      repoData rs = Some r /\ commitsData rs = Some c /\
      prsData rs = Some p /\ issuesData rs = Some i /\
      contributorsData rs = Some k /\
      fetch token rs target = live r c p i k).
Proof.
  unfold fetchDashboardData.
  destruct (noToken token); [left; split; [reflexivity | now left]|].
  destruct (repoData rs) as [r|];
    [|left; split; [reflexivity | right; now left]].
  destruct (commitsData rs) as [c|];
    [|left; split; [reflexivity | right; right; now left]].
  destruct (prsData rs) as [p|];
    [|left; split; [reflexivity | right; right; right; now left]].
  destruct (issuesData rs) as [i|];
    [|left; split; [reflexivity | right; right; right; right; now left]].
  destruct (contributorsData rs) as [k|];
    [|left; split; [reflexivity | right; right; right; right; now right]].
  right. exists r, c, p, i, k. repeat split.
Qed.




(** X15.  The data is mock data exactly when the token is absent, empty
    or ["mock"], or when at least one of the five requests failed; [fetch]
    itself never fails. *)
Theorem mock_data_iff (token : option string) (rs : Responses)
    (target : GitHubRepo) :
  isMockData (fetch token rs target) = true <->
  (token = None \/ token = Some ""%string \/ token = Some "mock"%string \/
   repoData rs = None \/ commitsData rs = None \/ prsData rs = None \/
   issuesData rs = None \/ contributorsData rs = None).
Proof.
  assert (noToken token = true <->
          token = None \/ token = Some ""%string \/ token = Some "mock"%string)
    as N.
  { unfold noToken. destruct token as [t|].
    - destruct (String.eqb_spec t "") as [->|E1]; cbn [orb].
      + split; [intros _; right; now left | reflexivity].
      + destruct (String.eqb_spec t "mock") as [->|E2].
        * split; [intros _; right; now right | reflexivity].
        * split; [discriminate|].
          intros [H|[H|H]]; try discriminate; injection H as ->; contradiction.
    - split; [now left | reflexivity]. }
  destruct (fetch_cases token rs target)
    as [[-> H]|(r & c & p & i & k & Ht & Hr & Hc & Hp & Hi & Hk & ->)].
  - split; [intros _|reflexivity].
    destruct H as [H|H]; [apply N in H; tauto | tauto].
  - cbn [liveDashboard isMockData]. split; [discriminate|].
    rewrite Hr, Hc, Hp, Hi, Hk.
    intros [H|[H|[H|[H|[H|[H|[H|H]]]]]]]; try discriminate;
      assert (noToken token = true) as T by (apply N; tauto); congruence.
Qed.

Lemma In_firstn {A : Type} (x : A) (n : nat) (l : list A) :
  In x (firstn n l) -> In x l.
Proof.
  revert n. induction l as [|a l IH]; intros n H.
  - now rewrite firstn_nil in H.
  - destruct n as [|n]; cbn [firstn] in H; [contradiction|].
    destruct H as [->|H]; [now left | right; now apply (IH n)].
Qed.

Lemma live_shape (r : GHRepo) (c : list GHCommit) (p : list GHPR)
    (i : list GHIssue) (k : list Q) :
  wellShaped (live r c p i k).
Proof.
  unfold wellShaped. cbn [liveDashboard recentCommits recentPRs recentIssues].
  rewrite !length_map, !length_firstn.
  repeat split; try lia.
  - apply Forall_forall. intros x Hx. apply in_map_iff in Hx.
    destruct Hx as (g & <- & _). cbn [ca_sha ca_message]. unfold slice0.
    repeat split; try apply substring_length_le.
    apply substring_noLineFeed, firstLine_noLineFeed.
  - apply Forall_forall. intros x Hx. apply in_map_iff in Hx.
    destruct Hx as (g & <- & Hg). cbn [pr_state pr_mergedAt pr_title].
    apply In_firstn, filter_In in Hg. destruct Hg as [_ Hm].
    unfold isMerged in Hm. unfold slice0.
    repeat split; [|apply substring_length_le].
    destruct (merged_at g); [discriminate | discriminate Hm].
  - apply Forall_forall. intros x Hx. apply in_map_iff in Hx.
    destruct Hx as (g & <- & _). cbn [is_title]. apply substring_length_le.
Qed.

Lemma mock_shape (target : GitHubRepo) : wellShaped (mock target).
Proof.
  unfold wellShaped. cbn [buildMockDashboard recentCommits recentPRs recentIssues].
  repeat split; try (cbn; lia).
  - apply Forall_forall. intros x Hx. apply in_map_iff in Hx.
    destruct Hx as (n & <- & Hn). cbn [ca_sha ca_message].
    split; [apply substring_length_le|].
    apply in_seq in Hn.
    do 8 (destruct n as [|n]; [split; [cbn; lia | reflexivity]|]). lia.
  - apply Forall_forall. intros x Hx. apply in_map_iff in Hx.
    destruct Hx as (n & <- & Hn). cbn [pr_state pr_mergedAt pr_title].
    split; [reflexivity|]. split; [discriminate|].
    apply in_seq in Hn.
    do 5 (destruct n as [|n]; [cbn; lia|]). lia.
  - apply Forall_forall. intros x Hx. apply in_map_iff in Hx.
    destruct Hx as (n & <- & Hn). cbn [is_title].
    apply in_seq in Hn.
    do 6 (destruct n as [|n]; [cbn; lia|]). lia.
Qed.

(** X16.  Every dashboard, live or mock, lists at most 10 commits, 10 pull
    requests and 15 issues; every commit has a short sha of at most 7
    characters and a message of at most 80 characters without a line feed;
    every listed pull request is merged, with a merge date, and its title,
    like every issue title, has at most 80 characters. *)
Theorem dashboard_lists_shape (token : option string) (rs : Responses)
    (target : GitHubRepo) :
  wellShaped (fetch token rs target) /\
  (forall r c p i k,
      length (recentCommits (live r c p i k)) = Nat.min 10 (length c) /\
      length (recentPRs (live r c p i k))
      = Nat.min 10 (length (filter isMerged p)) /\
      length (recentIssues (live r c p i k))
      = Nat.min 15 (length (filter notPullRequest i))).
Proof.
  split.
  - destruct (fetch_cases token rs target)
      as [[-> _]|(r & c & p & i & k & _ & _ & _ & _ & _ & _ & ->)].
    + apply mock_shape.
    + apply live_shape.
  - intros r c p i k.
    cbn [liveDashboard recentCommits recentPRs recentIssues].
    now rewrite !length_map, !length_firstn.
Qed.

Lemma filter_map_length {A B : Type} (g : A -> B) (f : B -> bool)
    (l : list A) :
  length (filter f (map g l)) = length (filter (fun a => f (g a)) l).
Proof.
  induction l as [|a l IH]; cbn [map filter]; [reflexivity|].
  destruct (f (g a)); cbn [length]; now rewrite IH.
Qed.

Lemma filter_firstn_le {A : Type} (f : A -> bool) (n : nat) (l : list A) :
  (length (filter f (firstn n l)) <= length (filter f l))%nat.
Proof.
  revert n. induction l as [|a l IH]; intros n.
  - now rewrite firstn_nil.
  - destruct n as [|n]; cbn [firstn filter]; [cbn; lia|].
    specialize (IH n). destruct (f a); cbn [length]; lia.
Qed.

(** X17.  On live data the stale flags of the listed issues are computed
    by the rule that counts [metrics.staleIssues]: the listed issues flagged
    stale are never more than [staleIssues], the listed issues never more
    than [totalIssues], and with at most 15 open issues the flagged ones are
    exactly [staleIssues]. *)
Theorem live_stale_flags (token : option string) (rs : Responses)
    (target : GitHubRepo) :
  isMockData (fetch token rs target) = false ->
  let d := fetch token rs target in
  Array_length (filter isStale (recentIssues d)) <= staleIssues (metrics d) /\
  Array_length (recentIssues d) <= totalIssues (metrics d) /\
  (totalIssues (metrics d) <= 15 ->
   Array_length (filter isStale (recentIssues d))
   = staleIssues (metrics d)).
Proof.
  intros Hlive d. subst d.
  destruct (fetch_cases token rs target)
    as [[E _]|(r & c & p & i & k & _ & _ & _ & _ & _ & _ & E)];
    rewrite E in *; [discriminate Hlive|].
  cbn [liveDashboard recentIssues metrics staleIssues totalIssues].
  set (F := filter notPullRequest i).
  unfold Array_length.
  rewrite filter_map_length, length_map. cbn [isStale].
  pose proof (filter_firstn_le (fun a => staleAt now getTime (updated_at a))
                15 F) as H1.
  pose proof (firstn_le_length 15 F) as H2.
  split; [rewrite <- Zle_Qle; lia|].
  split; [rewrite <- Zle_Qle; rewrite length_firstn; lia|].
  intros H15. change 15 with (inject_Z 15) in H15.
  rewrite <- Zle_Qle in H15.
  rewrite firstn_all2 by lia. reflexivity.
Qed.

End ClientFacts.

End GitHubClientFacts.

Lemma live_stale_flags_witness :
  GitHubClient.isMockData
    (GitHubClient.fetchDashboardData 2597500000 sampleGetTime
       (fun _ => "now"%string) sampleSine (fun _ => "0.5f3a9c1"%string)
       (Some "token"%string) sampleResponses sampleTarget) = false /\
  staleIssues
    (GitHubClient.metrics
       (GitHubClient.fetchDashboardData 2597500000 sampleGetTime
          (fun _ => "now"%string) sampleSine (fun _ => "0.5f3a9c1"%string)
          (Some "token"%string) sampleResponses sampleTarget)) = 1 /\
  totalIssues
    (GitHubClient.metrics
       (GitHubClient.fetchDashboardData 2597500000 sampleGetTime
          (fun _ => "now"%string) sampleSine (fun _ => "0.5f3a9c1"%string)
          (Some "token"%string) sampleResponses sampleTarget)) = 2 /\
  GitHubClient.Array_length
    (filter GitHubClient.isStale
       (GitHubClient.recentIssues
          (GitHubClient.fetchDashboardData 2597500000 sampleGetTime
             (fun _ => "now"%string) sampleSine (fun _ => "0.5f3a9c1"%string)
             (Some "token"%string) sampleResponses sampleTarget))) = 1.
Proof.
  split; [reflexivity|]. split; [reflexivity|]. split; [reflexivity|].
  refine (proj2 (proj2
            (GitHubClientFacts.live_stale_flags 2597500000 sampleGetTime
               (fun _ => "now"%string) sampleSine
               (fun _ => "0.5f3a9c1"%string) (Some "token"%string)
               sampleResponses sampleTarget eq_refl)) _).
  vm_compute. discriminate.
Defined.

(** * Formatting counts *)

(** X18.  The suffix is chosen before the value is rounded: a count from
    999950 to 999999 is below a million, takes the "K" form, and its
    thousands round up to 1000.0, so it is shown as "1000.0K" and not as
    "1.0M". *)
Theorem formatCount_rolls_over (n : Z) :
  (999950 <= n < 1000000)%Z -> formatCount n = Ok "1000.0K"%string.
Proof.
  intros [H1 H2]. unfold formatCount, formatMetricValue.
  assert (inject_Z 999950 <= inject_Z n) as Q1 by now rewrite <- Zle_Qle.
  assert (inject_Z n < inject_Z 1000000) as Q2 by now rewrite <- Zlt_Qlt.
  change (inject_Z 999950) with 999950 in Q1.
  change (inject_Z 1000000) with 1000000 in Q2.
  assert ((inject_Z n >=? 1000000) = false) as -> by (apply geb_lt; exact Q2).
  assert ((inject_Z n >=? 1000) = true) as -> by (apply geb_ge; lra).
  rewrite div_const by reflexivity. cbn [bind].
  unfold toFixed1_decimal.
  assert (0 <= inject_Z n / 1000) as P
    by (unfold Qdiv; change (/ 1000) with (1 # 1000); lra).
  assert (ltb (inject_Z n / 1000) 0 = false) as -> by now apply ltb_ge.
  assert (Qabs (inject_Z n / 1000) == inject_Z n / 1000) as A
    by now apply Qabs_pos.
  assert (Qfloor (Qabs (inject_Z n / 1000) * 10 + (1 # 2)) = 10000%Z) as ->.
  { assert (10000 <= Qfloor (Qabs (inject_Z n / 1000) * 10 + (1 # 2))
            <= 10000)%Z; [|lia].
    apply Qfloor_between; rewrite A; unfold Qdiv;
      change (/ 1000) with (1 # 1000);
      [change (inject_Z 10000) with 10000 | change (inject_Z 10000) with 10000];
      lra. }
  reflexivity.
Qed.

Lemma formatCount_rolls_over_witness :
  (999950 <= 999987 < 1000000)%Z /\
  formatCount 999987 = Ok "1000.0K"%string /\
  formatCount 999949 = Ok "999.9K"%string /\
  formatCount 1000000 = Ok "1.0M"%string.
Proof.
  assert (999950 <= 999987 < 1000000)%Z as H by lia.
  split; [exact H|].
  split; [exact (formatCount_rolls_over 999987 H)|].
  split; vm_compute; reflexivity.
Defined.
